(** * RespondToWebhook node: a shallow embedding of [execute]

    Source: packages/nodes-base/nodes/RespondToWebhook/RespondToWebhook.node.ts

    The node's [execute] method is modelled as a computation in a small
    trace-and-exception monad: the trace records the host calls that
    deliver something ([sendChunk], [sendResponse], [putExecutionToWait]),
    the result is either a value or a thrown JavaScript error. *)

From Stdlib Require Import QArith Ascii String.
From stdpp Require Import base strings list gmap pretty.

Close Scope Q_scope.
Open Scope string_scope.
Open Scope list_scope.
Set Warnings "-register-all".

(** ** JavaScript values *)

(** Numbers are taken as far as the node handles them: the integers, of
    magnitude below 10^21, where their decimal form is what [toString]
    prints. *)
Inductive JsValue : Type :=
| JUndefined
| JNull
| JBool (b : bool)
| JNum (n : Z)
| JStr (s : string)
| JArr (elems : list JsValue)
| JObj (fields : list (string * JsValue)).

(** Truthiness of a value, as [if (v)], [v && _], [v || _] and [v ? _ : _]
    test it. *)
Definition truthy (v : JsValue) : bool :=
  match v with
  | JUndefined | JNull => false
  | JBool b => b
  | JNum n => negb (n =? 0)%Z
  | JStr s => negb (s =? EmptyString)
  | JArr _ | JObj _ => true
  end.

(** [v === undefined || v === null], the test behind [??] and [?.]. *)
Definition nullish (v : JsValue) : bool :=
  match v with
  | JUndefined | JNull => true
  | _ => false
  end.

(** [a ?? b] *)
Definition coalesce (a b : JsValue) : JsValue :=
  if nullish a then b else a.

(** [typeof v === 'object'] *)
Definition typeof_object (v : JsValue) : bool :=
  match v with
  | JNull | JArr _ | JObj _ => true
  | _ => false
  end.

(** [Array.isArray(v)] *)
Definition isArray (v : JsValue) : bool :=
  match v with
  | JArr _ => true
  | _ => false
  end.

(** [o[k]] on the own properties of an object. *)
Fixpoint obj_get (fields : list (string * JsValue)) (k : string) : JsValue :=
  match fields with
  | [] => JUndefined
  | (k', v) :: rest => if k' =? k then v else obj_get rest k
  end.

(** [v.k] for a value already known not to be nullish: primitives and
    arrays have none of the properties read by the node. *)
Definition prop (v : JsValue) (k : string) : JsValue :=
  match v with
  | JObj fields => obj_get fields k
  | _ => JUndefined
  end.

(** [Object.keys(v)] *)
Definition Object_keys (v : JsValue) : list string :=
  match v with
  | JObj fields => fields.*1
  | JArr elems => pretty <$> seq 0 (length elems)
  | _ => []
  end.

(** [v.toString()] for a value that is not nullish; for a number, its
    decimal form (what JavaScript prints below 10^21). *)
Fixpoint js_toString (v : JsValue) : string :=
  match v with
  | JUndefined => "undefined"
  | JNull => "null"
  | JBool true => "true"
  | JBool false => "false"
  | JNum n => pretty n
  | JStr s => s
  | JArr elems =>
      (fix join (l : list JsValue) : string :=
         match l with
         | [] => EmptyString
         | [x] => if nullish x then EmptyString else js_toString x
         | x :: rest =>
             (if nullish x then EmptyString else js_toString x) +:+ "," +:+ join rest
         end) elems
  | JObj _ => "[object Object]"
  end.

(** [s.toLowerCase()] for a string of ASCII characters: only the letters
    A to Z change. Characters outside ASCII are left as they are, which is
    not what JavaScript does with them; statements that depend on the
    lower-casing of a header name assume the name is ASCII ([isAscii]). *)
Definition lower_ascii (c : ascii) : ascii :=
  let n := nat_of_ascii c in
  if (65 <=? n)%nat && (n <=? 90)%nat then ascii_of_nat (n + 32) else c.

Fixpoint toLowerCase (s : string) : string :=
  match s with
  | EmptyString => EmptyString
  | String c rest => String (lower_ascii c) (toLowerCase rest)
  end.


(** The double-quote character, as a string. *)
Definition dquote : string := String (ascii_of_nat 34) EmptyString.

(** ** Errors and results *)

Inductive ErrorKind : Type :=
| NodeOperationError   (* [new NodeOperationError(...)] *)
| TypeError            (* raised by the runtime on a bad dereference *)
| HostError.           (* any other error of a host or library call *)

Record JsError : Type := mkError {
  errKind : ErrorKind;
  errMessage : string
}.

Inductive Result (A : Type) : Type :=
| Ok (a : A)
| Throw (e : JsError).
Arguments Ok {A} a.
Arguments Throw {A} e.

(** ** Items, nodes, responses *)

Record BinaryData : Type := mkBinaryData {
  mimeType : string;
  data : string;
  fileName : option string
}.

(** [INodeExecutionData] as the node reads it: the JSON payload and the
    optional binary attachments, keyed by name in insertion order. *)
Record Item : Type := mkItem {
  json : JsValue;
  binary : option (list (string * BinaryData))
}.

(** The chat trigger's [parameters.options], where present. *)
Record ChatOptions : Type := mkChatOptions {
  responseMode : option string
}.

Record NodeParameters : Type := mkNodeParameters {
  nodeOptions : option ChatOptions
}.

(** A parent node as [getParentNodes(_, {includeNodeParameters: true})]
    returns it. *)
Record Node : Type := mkNode {
  type : string;
  disabled : bool;
  parameters : option NodeParameters
}.

(** The [headers] object: lower-cased names to string values; a header
    whose configured value was nullish is present with value [undefined]
    ([None]). *)
Abbreviation Headers := (gmap string (option string)).

(** [headers[k]] as a JavaScript value. *)
Definition header_get (h : Headers) (k : string) : JsValue :=
  match h !! k with
  | Some (Some s) => JStr s
  | _ => JUndefined
  end.

Record Response : Type := mkResponse {
  body : JsValue;
  headers : Headers;
  statusCode : Z
}.

(** The first argument of [sendChunk]: 'begin', 'item', 'end'. *)
Inductive ChunkType : Type := chunk_begin | chunk_item | chunk_end.

Inductive WaitTill : Type := WAIT_INDEFINITELY.

(** Host calls that deliver something. *)
Inductive Event : Type :=
| SendChunk (phase : ChunkType) (index : nat) (payload : JsValue)
| SendResponse (response : Response)
| PutExecutionToWait (waitTill : WaitTill).

Record PairedItemData : Type := mkPaired { pairedIndex : nat }.

(** The items [execute] returns. *)
Inductive OutputItem : Type :=
| InputItem (i : Item)                      (* an input item, passed on *)
| ChatItem (sendMessage : JsValue)          (* { json: {}, sendMessage } *)
| ResponseItem (response : Response)        (* { json: { response } } *)
| ErrorItem (message : string) (pairedItem : list PairedItemData).
                                            (* { json: { error }, pairedItem } *)

(** ** The execution monad *)

Definition M (A : Type) : Type := (list Event * Result A)%type.

#[global] Instance M_ret : MRet M := fun A a => ([], Ok a).

#[global] Instance M_bind : MBind M := fun A B f m =>
  match m with
  | (t, Ok a) => let '(t', r) := f a in (t ++ t', r)
  | (t, Throw e) => (t, Throw e)
  end.

Definition throw {A : Type} (e : JsError) : M A := ([], Throw e).

Definition emit (ev : Event) : M unit := ([ev], Ok tt).

Definition lift {A : Type} (r : Result A) : M A := ([], r).

(** [try { m } catch (error) { h error }] *)
Definition try_catch {A : Type} (m : M A) (h : JsError → M A) : M A :=
  match m with
  | (t, Throw e) => let '(t', r) := h e in (t ++ t', r)
  | (t, Ok a) => (t, Ok a)
  end.

Definition trace {A : Type} (m : M A) : list Event := m.1.
Definition result {A : Type} (m : M A) : Result A := m.2.

(** ** Libraries the node imports

    [n8n-workflow], [n8n-core], [lodash], [jsonwebtoken] and the node's
    [utils] are outside this file; the node's behaviour is stated for any
    implementation of them. *)

Record Library : Type := mkLibrary {
  WEBHOOK_NODE_TYPE : string;
  FORM_TRIGGER_NODE_TYPE : string;
  CHAT_TRIGGER_NODE_TYPE : string;
  WAIT_NODE_TYPE : string;
  isHtmlRenderedContentType : string → bool;
  sandboxHtmlResponse : JsValue → string;
  jsonParse : JsValue → Result JsValue;
  (* [JSON.stringify(value, null, space)]; [None] for the two-argument-less call *)
  JSON_stringify : JsValue → option nat → Result string;
  (* [set({}, path, value)] *)
  lodash_set : string → JsValue → JsValue;
  formatPrivateKey : string → string;
  (* [jwt.sign(payload, secretOrPrivateKey, { algorithm })] *)
  jwt_sign : JsValue → string → string → Result string;
  (* [getBinaryResponse(binaryData, headers)]: the body, and [headers] as
     the call leaves it *)
  getBinaryResponse : BinaryData → Headers → JsValue * Headers
}.

(** ** The host context [this : IExecuteFunctions] *)

Record HeaderEntry : Type := mkHeader {
  name : JsValue;
  value : JsValue
}.

(** The [options] collection; [None] is an option the user left unset. *)
Record Options : Type := mkOptions {
  responseCode : option Z;
  responseHeaders : option (list HeaderEntry);   (* [responseHeaders.entries] *)
  responseKey : option string;
  enableStreaming : option bool
}.

(** The node parameters, as [getNodeParameter(name, 0, default)] resolves
    them. *)
Record Parameters : Type := mkParameters {
  options : Options;
  respondWith : string;
  responseBody : JsValue;
  payload : JsValue;
  responseDataSource : string;
  inputFieldName : string;
  redirectURL : string;
  enableResponseOutput : bool
}.

Record Credentials : Type := mkCredentials {
  keyType : string;
  secret : string;
  algorithm : string;
  privateKey : string
}.

Record IExecuteFunctions : Type := mkContext {
  getInputData : list Item;
  typeVersion : Q;                         (* [getNode().typeVersion] *)
  getParentNodes : list Node;
  isStreaming : bool;
  continueOnFail : bool;
  getNodeParameter : Parameters;
  getCredentials : Result Credentials;     (* [getCredentials('jwtAuth')] *)
  assertBinaryData : nat → string → Result BinaryData
}.

(** ** Helpers of the repository that are outside this file *)

(** [generatePairedItemData] (nodes-base [utils/utilities]) is not among
    the sources; as the repository defines it, the call
    [generatePairedItemData(items.length)] supplies one pairing record
    [{item: i}] per input item, in input order. *)
Definition generatePairedItemData (length : nat) : list PairedItemData :=
  mkPaired <$> seq 0 length.

Definition with_pairedItem (d : OutputItem) (p : list PairedItemData) : OutputItem :=
  match d with
  | ErrorItem message _ => ErrorItem message p
  | _ => d
  end.

(** [helpers.constructExecutionMetaData] (n8n-core) is not among the
    sources; as the library defines it, every datum handed over comes back
    once, in order, with the whole of [itemData] as its [pairedItem]:
    [inputData.map((data) => ({ ...data, pairedItem: itemData }))]. *)
Definition constructExecutionMetaData
    (inputData : list OutputItem) (itemData : list PairedItemData) : list OutputItem :=
  (λ d, with_pairedItem d itemData) <$> inputData.

(** [new NodeOperationError(node, error, { message })] (n8n-workflow) is
    not among the sources; as the library defines it, an error that already
    is a NodeOperationError is returned as it is, and any other error is
    wrapped in a new one that carries the given message. *)
Definition newNodeOperationError (error : JsError) (message : string) : JsError :=
  match errKind error with
  | NodeOperationError => error
  | _ => mkError NodeOperationError message
  end.

(** ** [execute] *)

Definition v1_1 : Q := 11 # 10.
Definition v1_3 : Q := 13 # 10.
Definition v1_4 : Q := 14 # 10.
Definition v1_5 : Q := 15 # 10.

(** What leaves the [try] block: a [return] inside it, or the [response]
    it assigned when control falls through to the code after it. *)
Inductive TryResult : Type :=
| Returned (out : list (list OutputItem))
| FellThrough (response : Response).

Definition sendChunk (phase : ChunkType) (index : nat) (payload : JsValue) : M unit :=
  emit (SendChunk phase index payload).

Definition sendResponse (response : Response) : M unit :=
  emit (SendResponse response).

Definition putExecutionToWait (waitTill : WaitTill) : M unit :=
  emit (PutExecutionToWait waitTill).

Section Execute.

Variable lib : Library.
Variable this : IExecuteFunctions.

(* lines 358-377 *)
Definition items : list Item := getInputData this.
Definition nodeVersion : Q := typeVersion this.

Definition WEBHOOK_NODE_TYPES : list string :=
  [WEBHOOK_NODE_TYPE lib; FORM_TRIGGER_NODE_TYPE lib;
   CHAT_TRIGGER_NODE_TYPE lib; WAIT_NODE_TYPE lib].

Definition connectedNodes : list Node := getParentNodes this.

Definition opts : Options := options (getNodeParameter this).

Definition shouldStream : bool :=
  Qle_bool v1_5 nodeVersion && isStreaming this &&
  match enableStreaming opts with
  | Some false => false
  | _ => true
  end.

(* lines 380-391 *)
Definition isWebhookNode (node : Node) : bool :=
  existsb (String.eqb (type node)) WEBHOOK_NODE_TYPES.

Definition noWebhookError : JsError :=
  mkError NodeOperationError "No Webhook node found in the workflow".

Definition checkWebhookParent : M unit :=
  if Qle_bool v1_1 nodeVersion then
    if negb (existsb isWebhookNode connectedNodes) then throw noWebhookError
    else mret tt
  else mret tt.

(* lines 395-403 *)
Definition header_key (header : HeaderEntry) : string :=
  let name' :=
    match name header with
    | JStr s => JStr s
    | n => if nullish n then JUndefined else JStr (js_toString n)
    end in
  match name' with
  | JStr s => toLowerCase s
  | _ => "undefined"
  end.

Definition header_value (header : HeaderEntry) : option string :=
  if nullish (value header) then None else Some (js_toString (value header)).

Definition configuredHeaders : Headers :=
  match responseHeaders opts with
  | Some entries =>
      fold_left (λ hs header, <[header_key header := header_value header]> hs)
                entries ∅
  | None => ∅
  end.

(* lines 405-408 *)
Definition hasHtmlContentType (hs : Headers) : bool :=
  match header_get hs "content-type" with
  | JStr s => truthy (JStr s) && isHtmlRenderedContentType lib s
  | _ => false
  end.

Definition defaultStatusCode : Z :=
  match responseCode opts with
  | Some c => if (c =? 0)%Z then 200 else c
  | None => 200
  end.

Definition sendTriplet (index : nat) (payload : JsValue) : M unit :=
  sendChunk chunk_begin index JUndefined;;
  sendChunk chunk_item index payload;;
  sendChunk chunk_end index JUndefined.

(* lines 464-469: [items.map((item, index) => ...)] *)
Fixpoint respondItems (index : nat) (its : list Item) : M (list JsValue) :=
  match its with
  | [] => mret []
  | it :: rest =>
      sendChunk chunk_begin index JUndefined;;
      sendChunk chunk_item index (json it);;
      sendChunk chunk_end index JUndefined;;
      js ← respondItems (S index) rest;
      mret (json it :: js)
  end.

Definition putInField (v : JsValue) : JsValue :=
  match responseKey opts with
  | Some key => if truthy (JStr key) then lodash_set lib key v else v
  | None => v
  end.

Definition itemsIndexError (field : string) : JsError :=
  mkError TypeError
    ("Cannot read properties of undefined (reading '" +:+ field +:+ "')").

Definition noBinaryError : JsError :=
  mkError NodeOperationError "No binary data exists on the first item!".

Definition invalidJsonError : JsError :=
  mkError NodeOperationError "Invalid JSON in 'Response Body' field".

Definition jwtError : JsError :=
  mkError NodeOperationError "Error signing JWT token".

Definition unsupportedError (mode : string) : JsError :=
  mkError NodeOperationError
    ("The Response Data option " +:+ dquote +:+ mode +:+ dquote +:+ " is not supported!").

(* lines 410-432: respondWith === 'json'; what [jsonParse] throws is the
   SyntaxError of [JSON.parse], which the constructor always wraps *)
Definition respondJson : M JsValue :=
  let responseBodyParameter := responseBody (getNodeParameter this) in
  responseBody ←
    (if truthy responseBodyParameter then
       if typeof_object responseBodyParameter then mret responseBodyParameter
       else try_catch (lift (jsonParse lib responseBodyParameter))
                      (λ _, throw invalidJsonError)
     else mret JUndefined);
  (if shouldStream then sendTriplet 0 responseBody else mret tt);;
  mret responseBody.

(* lines 433-462: respondWith === 'jwt' *)
Definition respondJwt : M JsValue :=
  try_catch
    (credentials ← lift (getCredentials this);
     let secretOrPrivateKey :=
       if keyType credentials =? "passphrase" then secret credentials
       else formatPrivateKey lib (privateKey credentials) in
     let payload := payload (getNodeParameter this) in
     token ← lift (jwt_sign lib payload secretOrPrivateKey (algorithm credentials));
     let responseBody := JObj [("token", JStr token)] in
     (if shouldStream then sendTriplet 0 responseBody else mret tt);;
     mret responseBody)
    (λ error, throw (newNodeOperationError error "Error signing JWT token")).

(* lines 463-472: respondWith === 'allIncomingItems' *)
Definition respondAllIncomingItems : M JsValue :=
  respondItems ← respondItems 0 items;
  mret (putInField (JArr respondItems)).

(* lines 473-481: respondWith === 'firstIncomingItem' *)
Definition respondFirstIncomingItem : M JsValue :=
  match items with
  | [] => throw (itemsIndexError "json")
  | first :: _ =>
      let responseBody := putInField (json first) in
      (if shouldStream then sendTriplet 0 (json first) else mret tt);;
      mret responseBody
  end.

(* lines 482-495: respondWith === 'text' *)
Definition respondText (headers : Headers) : M JsValue :=
  let rawBody := responseBody (getNodeParameter this) in
  let responseBody :=
    if hasHtmlContentType headers || negb (truthy (header_get headers "content-type"))
    then JStr (sandboxHtmlResponse lib rawBody)
    else rawBody in
  (if shouldStream then sendTriplet 0 rawBody else mret tt);;
  mret responseBody.

(* lines 496-522: respondWith === 'binary' *)
Definition respondBinary (headers : Headers) : M (JsValue * Headers) :=
  match items with
  | [] => throw (itemsIndexError "binary")
  | item :: _ =>
      match binary item with
      | None => throw noBinaryError
      | Some itemBinary =>
          responseBinaryPropertyName ←
            (if responseDataSource (getNodeParameter this) =? "set" then
               mret (inputFieldName (getNodeParameter this))
             else
               match itemBinary.*1 with
               | [] => throw noBinaryError
               | key :: _ => mret key
               end);
          binaryData ← lift (assertBinaryData this 0 responseBinaryPropertyName);
          mret (getBinaryResponse lib binaryData headers)
      end
  end.

(* lines 410-531: the dispatch on [respondWith]; yields [responseBody],
   [headers] and [statusCode] as the branch leaves them *)
Definition respond (headers : Headers) (statusCode : Z) : M (JsValue * Headers * Z) :=
  let respondWith := respondWith (getNodeParameter this) in
  if respondWith =? "json" then
    responseBody ← respondJson; mret (responseBody, headers, statusCode)
  else if respondWith =? "jwt" then
    responseBody ← respondJwt; mret (responseBody, headers, statusCode)
  else if respondWith =? "allIncomingItems" then
    responseBody ← respondAllIncomingItems; mret (responseBody, headers, statusCode)
  else if respondWith =? "firstIncomingItem" then
    responseBody ← respondFirstIncomingItem; mret (responseBody, headers, statusCode)
  else if respondWith =? "text" then
    responseBody ← respondText headers; mret (responseBody, headers, statusCode)
  else if respondWith =? "binary" then
    '(responseBody, headers') ← respondBinary headers;
    mret (responseBody, headers', statusCode)
  else if respondWith =? "redirect" then
    mret (JUndefined,
          <["location" := Some (redirectURL (getNodeParameter this))]> headers,
          default 307%Z (responseCode opts))
  else if negb (respondWith =? "noData") then
    throw (unsupportedError respondWith)
  else mret (JUndefined, headers, statusCode).

(* lines 533-535 *)
Definition chatTrigger : option Node :=
  List.find (λ node, (type node =? CHAT_TRIGGER_NODE_TYPE lib) && negb (disabled node))
            connectedNodes.

(* line 546: [parameters.options.responseMode], with
   [parameters = chatTrigger.parameters] *)
Definition read_responseMode (node : Node) : Result (option string) :=
  match parameters node with
  | None =>
      Throw (mkError TypeError
               "Cannot read properties of undefined (reading 'options')")
  | Some parameters =>
      match nodeOptions parameters with
      | None =>
          Throw (mkError TypeError
                   "Cannot read properties of undefined (reading 'responseMode')")
      | Some options => Ok (responseMode options)
      end
  end.

(* lines 543-547 *)
Definition chatDeferred : M bool :=
  match chatTrigger with
  | None => mret false
  | Some node =>
      if negb (disabled node) then
        mode ← lift (read_responseMode node);
        mret (bool_decide (mode = Some "responseNodes"))
      else mret false
  end.

(* lines 548-561 *)
Definition chatMessage (responseBody : JsValue) : JsValue :=
  let message := JStr EmptyString in
  if truthy responseBody && typeof_object responseBody && negb (isArray responseBody)
  then
    let message :=
      coalesce
        (coalesce (coalesce (prop responseBody "output") (prop responseBody "text"))
                  (prop responseBody "message"))
        (JStr EmptyString) in
    if match message with JStr s => s =? EmptyString | _ => false end
       && (0 <? length (Object_keys responseBody))%nat
    then
      match JSON_stringify lib responseBody (Some 2%nat) with
      | Ok s => JStr s
      | Throw _ => message
      end
    else message
  else message.

(* lines 567-574 *)
Definition sandboxBody (headers : Headers) (responseBody : JsValue) : M JsValue :=
  let respondWith := respondWith (getNodeParameter this) in
  if hasHtmlContentType headers
     && negb (respondWith =? "text")
     && negb (respondWith =? "binary")
     && truthy responseBody
  then
    s ← lift (JSON_stringify lib responseBody None);
    mret (JStr (sandboxHtmlResponse lib (JStr s)))
  else mret responseBody.

(* lines 393-584: the [try] block after the webhook-parent check *)
Definition respondBlock : M TryResult :=
  let respondWith := respondWith (getNodeParameter this) in
  let headers := configuredHeaders in
  let statusCode := defaultStatusCode in
  '(responseBody, headers, statusCode) ← respond headers statusCode;
  deferred ← chatDeferred;
  if deferred : bool then
    let message := chatMessage responseBody in
    putExecutionToWait WAIT_INDEFINITELY;;
    mret (Returned [[ChatItem message]])
  else
    responseBody ← sandboxBody headers responseBody;
    let response := mkResponse responseBody headers statusCode in
    (if negb shouldStream || (respondWith =? "binary")
     then sendResponse response else mret tt);;
    mret (FellThrough response).

(* lines 380-584: the body of the [try] block *)
Definition tryBlock : M TryResult :=
  checkWebhookParent;;
  respondBlock.

(* lines 585-596: the [catch] block *)
Definition catchBlock (error : JsError) : M TryResult :=
  if continueOnFail this then
    let itemData := generatePairedItemData (length items) in
    let returnData :=
      constructExecutionMetaData [ErrorItem (errMessage error) []] itemData in
    mret (Returned [returnData])
  else throw error.

(* lines 357-605 *)
Definition execute : M (list (list OutputItem)) :=
  r ← try_catch tryBlock catchBlock;
  match r with
  | Returned out => mret out
  | FellThrough response =>
      let passed := InputItem <$> items in
      if Qeq_bool nodeVersion v1_3 then
        mret [passed; [ResponseItem response]]
      else if Qle_bool v1_4 nodeVersion
              && enableResponseOutput (getNodeParameter this) then
        mret [passed; [ResponseItem response]]
      else mret [passed]
  end.

End Execute.

(** ** [onMessage] *)

(* lines 349-355: the input data, as the single output branch *)
Definition onMessage (context : IExecuteFunctions) (_data : Item)
    : list (list OutputItem) :=
  let inputData := getInputData context in
  [InputItem <$> inputData].

(** ** A concrete library and host, to run the model on inputs *)

Module Sample.

(** [isHtmlRenderedContentType]: the media types a browser renders. *)
Definition isHtml (contentType : string) : bool :=
  let ct := toLowerCase contentType in
  String.prefix "text/html" ct || String.prefix "application/xhtml+xml" ct.

Definition sandbox (v : JsValue) : string :=
  "<iframe srcdoc='" +:+ js_toString v +:+ "' sandbox></iframe>".

(** A parser that knows the empty object and rejects every other string. *)
Definition parse (v : JsValue) : Result JsValue :=
  match v with
  | JStr "{}" => Ok (JObj [])
  | JStr _ => Throw (mkError HostError "Unexpected token in JSON")
  | other => Ok other
  end.

Definition newline : string := String (ascii_of_nat 10) EmptyString.

(** A JSON string literal; only the quote and the backslash are escaped. *)
Fixpoint escape (s : string) : string :=
  match s with
  | EmptyString => EmptyString
  | String c rest =>
      if (nat_of_ascii c =? 34)%nat || (nat_of_ascii c =? 92)%nat
      then String (ascii_of_nat 92) (String c (escape rest))
      else String c (escape rest)
  end.

Definition quote (s : string) : string := dquote +:+ escape s +:+ dquote.

Definition spaces (n : nat) : string := String.concat EmptyString (replicate n " ").

Definition bracket (opening closing indent gap : string) (parts : list string) : string :=
  match parts with
  | [] => opening +:+ closing
  | _ =>
      if gap =? EmptyString then opening +:+ String.concat "," parts +:+ closing
      else opening +:+ newline +:+ indent +:+ gap
           +:+ String.concat ("," +:+ newline +:+ indent +:+ gap) parts
           +:+ newline +:+ indent +:+ closing
  end.

(** [JSON.stringify] below the top level: [undefined] prints as [null] in an
    array, and a property holding it is left out. *)
Fixpoint stringify_at (indent gap : string) (v : JsValue) : string :=
  match v with
  | JUndefined | JNull => "null"
  | JBool true => "true"
  | JBool false => "false"
  | JNum n => pretty n
  | JStr s => quote s
  | JArr elems =>
      bracket "[" "]" indent gap (map (stringify_at (indent +:+ gap) gap) elems)
  | JObj fields =>
      bracket "{" "}" indent gap
        ((fix members (l : list (string * JsValue)) : list string :=
            match l with
            | [] => []
            | (_, JUndefined) :: rest => members rest
            | (k, x) :: rest =>
                (quote k +:+ (if gap =? EmptyString then ":" else ": ")
                 +:+ stringify_at (indent +:+ gap) gap x) :: members rest
            end) fields)
  end.

Definition stringify (v : JsValue) (space : option nat) : Result string :=
  Ok (stringify_at EmptyString (spaces (default 0%nat space)) v).

Definition library : Library := {|
  WEBHOOK_NODE_TYPE := "n8n-nodes-base.webhook";
  FORM_TRIGGER_NODE_TYPE := "n8n-nodes-base.formTrigger";
  CHAT_TRIGGER_NODE_TYPE := "@n8n/n8n-nodes-langchain.chatTrigger";
  WAIT_NODE_TYPE := "n8n-nodes-base.wait";
  isHtmlRenderedContentType := isHtml;
  sandboxHtmlResponse := sandbox;
  jsonParse := parse;
  JSON_stringify := stringify;
  lodash_set := λ path v, JObj [(path, v)];
  formatPrivateKey := λ key, key;
  jwt_sign := λ _ key _, Ok ("signed-with-" +:+ key);
  getBinaryResponse := λ b hs, (JStr (data b), <["content-type" := Some (mimeType b)]> hs)
|}.

Definition noOptions : Options := mkOptions None None None None.

Definition parametersFor (mode : string) (o : Options) (bodyParam : JsValue) : Parameters := {|
  options := o;
  respondWith := mode;
  responseBody := bodyParam;
  payload := JObj [];
  responseDataSource := "automatically";
  inputFieldName := "data";
  redirectURL := "http://x";
  enableResponseOutput := false
|}.

(** The host's [assertBinaryData]: the named attachment of the item, or
    the host's own error. *)
Definition assertBinary (its : list Item) (index : nat) (field : string) : Result BinaryData :=
  match its !! index with
  | Some it =>
      match binary it with
      | Some attachments =>
          match List.find (λ kv, fst kv =? field) attachments with
          | Some kv => Ok (snd kv)
          | None =>
              Throw (mkError NodeOperationError
                ("The item has no binary field '" +:+ field +:+ "' [item "
                 +:+ pretty index +:+ "]"))
          end
      | None =>
          Throw (mkError NodeOperationError
            ("This operation expects the node's input data to contain a binary file '"
             +:+ field +:+ "', but none was found [item " +:+ pretty index +:+ "]"))
      end
  | None => Throw (mkError HostError "item index out of range")
  end.

Definition context (version : Q) (parents : list Node) (streaming onFail : bool)
    (its : list Item) (p : Parameters) : IExecuteFunctions := {|
  getInputData := its;
  typeVersion := version;
  getParentNodes := parents;
  isStreaming := streaming;
  continueOnFail := onFail;
  getNodeParameter := p;
  getCredentials := Ok (mkCredentials "passphrase" "s3cret" "HS256" EmptyString);
  assertBinaryData := assertBinary its
|}.

Definition webhookNode : Node :=
  mkNode "n8n-nodes-base.webhook" false (Some (mkNodeParameters None)).

Definition chatNode (mode : option string) : Node :=
  mkNode "@n8n/n8n-nodes-langchain.chatTrigger" false
         (Some (mkNodeParameters (Some (mkChatOptions mode)))).

Definition chatNodeWithoutOptions : Node :=
  mkNode "@n8n/n8n-nodes-langchain.chatTrigger" false (Some (mkNodeParameters None)).

Definition jsonItem (v : JsValue) : Item := mkItem v None.

(** Version 1.4 behind a chat trigger that defers to response nodes,
    answering with the first incoming item. *)
Definition firstItemToChat (v : JsValue) : IExecuteFunctions :=
  context v1_4 [chatNode (Some "responseNodes")] false false [jsonItem v]
          (parametersFor "firstIncomingItem" noOptions JUndefined).

(** Version 1.4 behind a chat trigger, answering with all incoming items. *)
Definition allItemsToChat (its : list Item) : IExecuteFunctions :=
  context v1_4 [chatNode (Some "responseNodes")] false false its
          (parametersFor "allIncomingItems" noOptions JUndefined).

(** Version 1.4 behind a webhook, answering with a text. *)
Definition textRun (responseHeaders : option (list HeaderEntry)) (text : string)
    : IExecuteFunctions :=
  context v1_4 [webhookNode] false false [jsonItem (JObj [])]
          (parametersFor "text" (mkOptions None responseHeaders None None) (JStr text)).

(** Version 1.4 behind a webhook, answering with the binary data of the
    first item. *)
Definition binaryRun (source : string) (first : Item) : IExecuteFunctions :=
  context v1_4 [webhookNode] false false [first]
    {| options := noOptions;
       respondWith := "binary";
       responseBody := JUndefined;
       payload := JObj [];
       responseDataSource := source;
       inputFieldName := "data";
       redirectURL := EmptyString;
       enableResponseOutput := false |}.

(** Version 1.5 behind a webhook, on a host that streams. *)
Definition streamingRun (mode : string) : IExecuteFunctions :=
  context v1_5 [webhookNode] true false [jsonItem (JObj [])]
          (parametersFor mode noOptions JUndefined).

(** Version 1.1 behind a webhook with an unparsable JSON body and
    continue-on-fail set. *)
Definition invalidJsonRun (its : list Item) : IExecuteFunctions :=
  context v1_1 [webhookNode] false true its
          (parametersFor "json" noOptions (JStr "{")).

(** A run on a webhook parent with everything spelled out. *)
Definition runOf (version : Q) (streaming : bool) (mode : string) (o : Options)
    (bodyParam : JsValue) (its : list Item) : IExecuteFunctions :=
  context version [webhookNode] streaming false its (parametersFor mode o bodyParam).

Definition headerOptions (entries : list HeaderEntry) : Options :=
  mkOptions None (Some entries) None None.

Definition disabledChatNode : Node :=
  mkNode "@n8n/n8n-nodes-langchain.chatTrigger" true None.

Definition pngFile : BinaryData := mkBinaryData "image/png" "iVBORw0KGgo=" None.

(** Version 1.4, an empty JSON object answered as [text/html]. *)
Definition htmlJsonRun : IExecuteFunctions :=
  runOf v1_4 false "json"
        (headerOptions [mkHeader (JStr "Content-Type") (JStr "text/html")])
        (JStr "{}") [jsonItem (JObj [])].

Definition htmlJsonResponse : Response :=
  mkResponse (JStr (sandbox (JStr "{}"))) {["content-type" := Some "text/html"]} 200.

(** Version 1.4 behind a webhook, mode [jwt], on a node that has no
    credentials set: the host's [getCredentials] fails with a
    NodeOperationError of its own. *)
Definition noCredentialsError : JsError :=
  mkError NodeOperationError "Node does not have any credentials set".

Definition jwtRunWithoutCredentials : IExecuteFunctions := {|
  getInputData := [jsonItem (JObj [])];
  typeVersion := v1_4;
  getParentNodes := [webhookNode];
  isStreaming := false;
  continueOnFail := false;
  getNodeParameter := parametersFor "jwt" noOptions JUndefined;
  getCredentials := Throw noCredentialsError;
  assertBinaryData := assertBinary [jsonItem (JObj [])]
|}.

(** Version 1, two items answered under the key [data]. *)
Definition keyedItemsRun : IExecuteFunctions :=
  runOf 1 false "allIncomingItems" (mkOptions None None (Some "data") None)
        JUndefined [jsonItem (JNum 1); jsonItem (JNum 2)].

Definition keyedItemsResponse : Response :=
  mkResponse (JObj [("data", JArr [JNum 1; JNum 2])]) ∅ 200.

(** Version 1.4 behind two enabled chat triggers: the first answers with
    the last node, the second has no [options]. *)
Definition twoChatTriggersRun : IExecuteFunctions :=
  context v1_4 [chatNode (Some "lastNode"); chatNodeWithoutOptions] false false
          [jsonItem (JObj [])] (parametersFor "noData" noOptions JUndefined).

End Sample.

(** ** What a trace delivered *)

Definition isChunk (ev : Event) : bool :=
  match ev with
  | SendChunk _ _ _ => true
  | _ => false
  end.

Definition isSendResponse (ev : Event) : bool :=
  match ev with
  | SendResponse _ => true
  | _ => false
  end.

Definition isWait (ev : Event) : bool :=
  match ev with
  | PutExecutionToWait _ => true
  | _ => false
  end.

Definition sendResponseCount (t : list Event) : nat :=
  length (List.filter isSendResponse t).

(** Responses that reached the host: the chunk stream, if any chunk was
    emitted, and every [sendResponse] call. *)
Definition deliveries (t : list Event) : nat :=
  (if existsb isChunk t then 1 else 0) + sendResponseCount t.

(** The begin/item/end triplet of every item, in input order. *)
Fixpoint itemChunks (index : nat) (its : list Item) : list Event :=
  match its with
  | [] => []
  | it :: rest =>
      SendChunk chunk_begin index JUndefined
      :: SendChunk chunk_item index (json it)
      :: SendChunk chunk_end index JUndefined
      :: itemChunks (S index) rest
  end.

(** The first of the [output], [text] and [message] properties that is
    neither [undefined] nor [null]. *)
Definition extractedField (fields : list (string * JsValue)) : option JsValue :=
  List.find (λ v, negb (nullish v))
            [obj_get fields "output"; obj_get fields "text"; obj_get fields "message"].

(** ** The chat message as the specification words it *)

(** The first of [output], [text], [message] that is present; failing
    that, the two-space JSON stringification of a non-empty object body. *)
Definition specChatMessage (lib : Library) (responseBody : JsValue) : JsValue :=
  match responseBody with
  | JObj fields =>
      match extractedField fields with
      | Some m => m
      | None =>
          match fields, JSON_stringify lib responseBody (Some 2%nat) with
          | _ :: _, Ok s => JStr s
          | _, _ => JStr EmptyString
          end
      end
  | _ => JStr EmptyString
  end.

(** A computation whose trace holds chunks only. *)
Definition onlyChunks {A : Type} (m : M A) : Prop :=
  Forall (λ ev, isChunk ev = true) (trace m).

(** One begin/item/end triplet. *)
Definition chunkTriplet (index : nat) (payload : JsValue) : list Event :=
  [SendChunk chunk_begin index JUndefined;
   SendChunk chunk_item index payload;
   SendChunk chunk_end index JUndefined].



Definition waitCount (t : list Event) : nat :=
  length (List.filter isWait t).

(** * Properties *)

(** ** The execution monad *)

Lemma M_bind_ret {A B : Type} (a : A) (f : A → M B) : mret a ≫= f = f a.
Proof. unfold mret, M_ret, mbind, M_bind. now destruct (f a). Qed.

Lemma M_bind_throw {A B : Type} (e : JsError) (f : A → M B) : throw e ≫= f = throw e.
Proof. reflexivity. Qed.

Lemma M_bind_ok {A B : Type} (t : list Event) (a : A) (f : A → M B) :
  (t, Ok a) ≫= f = (t ++ trace (f a), result (f a)).
Proof. unfold mbind, M_bind, trace, result. now destruct (f a). Qed.

Lemma M_bind_fail {A B : Type} (t : list Event) (e : JsError) (f : A → M B) :
  (t, Throw e) ≫= f = (t, Throw e).
Proof. reflexivity. Qed.

Lemma M_eta {A : Type} (m : M A) : m = (trace m, result m).
Proof. now destruct m. Qed.

Lemma try_catch_ok {A : Type} (t : list Event) (a : A) (h : JsError → M A) :
  try_catch (t, Ok a) h = (t, Ok a).
Proof. reflexivity. Qed.

Lemma try_catch_fail {A : Type} (t : list Event) (e : JsError) (h : JsError → M A) :
  try_catch (t, Throw e) h = (t ++ trace (h e), result (h e)).
Proof. unfold try_catch, trace, result. now destruct (h e). Qed.

(** ** Version comparisons *)

Lemma Qle_bool_true (v w : Q) : (v <= w)%Q → Qle_bool v w = true.
Proof. apply Qle_bool_iff. Qed.

Lemma Qle_bool_false (v w : Q) : (w < v)%Q → Qle_bool v w = false.
Proof.
  intros Hlt. destruct (Qle_bool v w) eqn:E; [|reflexivity].
  apply Qle_bool_iff in E. exfalso. exact (Qlt_not_le _ _ Hlt E).
Qed.

Section Properties.

Variable lib : Library.

(** ** The webhook-parent check (lines 380-391) *)

Lemma isWebhookNode_spec (node : Node) :
  isWebhookNode lib node = true ↔ type node ∈ WEBHOOK_NODE_TYPES lib.
Proof.
  unfold isWebhookNode. rewrite existsb_exists. split.
  - intros (x & Hin & Heq). apply String.eqb_eq in Heq. subst x.
    now apply list_elem_of_In.
  - intros Hin. exists (type node). split; [now apply list_elem_of_In|].
    apply String.eqb_refl.
Qed.

Lemma no_webhook_parent (parents : list Node) :
  Forall (λ node, type node ∉ WEBHOOK_NODE_TYPES lib) parents →
  existsb (isWebhookNode lib) parents = false.
Proof.
  induction 1 as [|node rest Hnode _ IH]; [reflexivity|].
  simpl. rewrite IH, orb_false_r.
  destruct (isWebhookNode lib node) eqn:E; [|reflexivity].
  apply isWebhookNode_spec in E. contradiction.
Qed.

Lemma checkWebhookParent_old_version (this : IExecuteFunctions) :
  (typeVersion this < v1_1)%Q → checkWebhookParent lib this = mret tt.
Proof.
  intros Hlt. unfold checkWebhookParent, nodeVersion.
  now rewrite (Qle_bool_false _ _ Hlt).
Qed.

Lemma checkWebhookParent_connected (this : IExecuteFunctions) :
  existsb (isWebhookNode lib) (getParentNodes this) = true →
  checkWebhookParent lib this = mret tt.
Proof.
  intros Hex. unfold checkWebhookParent, connectedNodes. rewrite Hex.
  now destruct (Qle_bool _ _).
Qed.

Lemma checkWebhookParent_missing (this : IExecuteFunctions) :
  (v1_1 <= typeVersion this)%Q →
  existsb (isWebhookNode lib) (getParentNodes this) = false →
  checkWebhookParent lib this = throw noWebhookError.
Proof.
  intros Hle Hex. unfold checkWebhookParent, nodeVersion, connectedNodes.
  now rewrite (Qle_bool_true _ _ Hle), Hex.
Qed.

Lemma tryBlock_checked (this : IExecuteFunctions) :
  checkWebhookParent lib this = mret tt →
  tryBlock lib this = respondBlock lib this.
Proof.
  intros Hc. unfold tryBlock. rewrite Hc.
  exact (M_bind_ret tt (λ _, respondBlock lib this)).
Qed.

(** How [execute] ends when the [try] block throws. *)
Lemma execute_thrown (this : IExecuteFunctions) (t : list Event) (e : JsError) :
  tryBlock lib this = (t, Throw e) →
  execute lib this =
    if continueOnFail this
    then (t, Ok [constructExecutionMetaData [ErrorItem (errMessage e) []]
                   (generatePairedItemData (length (getInputData this)))])
    else (t, Throw e).
Proof.
  intros Ht. unfold execute. rewrite Ht, try_catch_fail.
  unfold catchBlock, items. destruct (continueOnFail this); simpl.
  - now rewrite !app_nil_r.
  - now rewrite app_nil_r.
Qed.

(** C7: from version 1.1 on, a node with no webhook, form-trigger,
    chat-trigger or wait node among its parents fails with "No Webhook node
    found in the workflow" before anything is dispatched or delivered,
    whatever the mode (the error reaches the host unless continue-on-fail
    turns it into the error output); below 1.1 the check is skipped and the
    [try] block is the dispatch itself. *)
Theorem webhook_parent_check_gated (this : IExecuteFunctions) :
  ((v1_1 <= typeVersion this)%Q →
   Forall (λ node, type node ∉ WEBHOOK_NODE_TYPES lib) (getParentNodes this) →
   tryBlock lib this = throw noWebhookError ∧
   execute lib this =
     if continueOnFail this
     then mret [constructExecutionMetaData
                  [ErrorItem "No Webhook node found in the workflow" []]
                  (generatePairedItemData (length (getInputData this)))]
     else throw noWebhookError)
  ∧ ((typeVersion this < v1_1)%Q →
     checkWebhookParent lib this = mret tt ∧
     tryBlock lib this = respondBlock lib this).
Proof.
  split.
  - intros Hle Hnone. apply no_webhook_parent in Hnone.
    assert (Ht : tryBlock lib this = throw noWebhookError).
    { unfold tryBlock. now rewrite (checkWebhookParent_missing _ Hle Hnone). }
    split; [exact Ht|]. now rewrite (execute_thrown _ _ _ Ht).
  - intros Hlt. pose proof (checkWebhookParent_old_version _ Hlt) as Hc.
    split; [exact Hc|]. now apply tryBlock_checked.
Qed.

(** ** Modes that read the first item (lines 473-481, 496-501) *)

Lemma respondBlock_dispatch_throws (this : IExecuteFunctions) (t : list Event) (e : JsError) :
  respond lib this (configuredHeaders this) (defaultStatusCode this) = (t, Throw e) →
  respondBlock lib this = (t, Throw e).
Proof. intros Hr. unfold respondBlock. now rewrite Hr. Qed.

Lemma respond_firstIncomingItem_empty (this : IExecuteFunctions) (hs : Headers) (code : Z) :
  getInputData this = [] →
  respondWith (getNodeParameter this) = "firstIncomingItem" →
  respond lib this hs code = throw (itemsIndexError "json").
Proof.
  intros Hitems Hmode. unfold respond. rewrite Hmode. simpl.
  unfold respondFirstIncomingItem, items. now rewrite Hitems.
Qed.

Lemma respond_binary_empty (this : IExecuteFunctions) (hs : Headers) (code : Z) :
  getInputData this = [] →
  respondWith (getNodeParameter this) = "binary" →
  respond lib this hs code = throw (itemsIndexError "binary").
Proof.
  intros Hitems Hmode. unfold respond. rewrite Hmode. simpl.
  unfold respondBinary, items. now rewrite Hitems.
Qed.

(** C10: modes [firstIncomingItem] and [binary] read [items[0]] unguarded.
    On an empty input, once the webhook-parent check has passed, the [try]
    block fails with the runtime's TypeError (and not with one of the
    node's own NodeOperationErrors), nothing having been delivered; the
    error reaches the host unless continue-on-fail is set. *)
Theorem first_item_modes_need_nonempty_input (this : IExecuteFunctions) :
  getInputData this = [] →
  respondWith (getNodeParameter this) = "firstIncomingItem"
    ∨ respondWith (getNodeParameter this) = "binary" →
  checkWebhookParent lib this = mret tt →
  ∃ e : JsError,
    errKind e = TypeError ∧
    tryBlock lib this = throw e ∧
    (continueOnFail this = false → execute lib this = throw e).
Proof.
  intros Hitems Hmode Hcheck.
  assert (∃ e, errKind e = TypeError ∧ tryBlock lib this = throw e) as (e & Hk & Ht).
  { rewrite (tryBlock_checked _ Hcheck). destruct Hmode as [Hmode|Hmode].
    - exists (itemsIndexError "json"). split; [reflexivity|].
      apply respondBlock_dispatch_throws.
      now apply respond_firstIncomingItem_empty.
    - exists (itemsIndexError "binary"). split; [reflexivity|].
      apply respondBlock_dispatch_throws.
      now apply respond_binary_empty. }
  exists e. repeat split; [exact Hk|exact Ht|].
  intros Hcof. rewrite (execute_thrown _ _ _ Ht). now rewrite Hcof.
Qed.

(** ** The dispatch delivers chunks only (lines 410-531) *)

Lemma onlyChunks_ret {A : Type} (a : A) : onlyChunks (mret a : M A).
Proof. constructor. Qed.

Lemma onlyChunks_throw {A : Type} (e : JsError) : onlyChunks (throw e : M A).
Proof. constructor. Qed.

Lemma onlyChunks_lift {A : Type} (r : Result A) : onlyChunks (lift r).
Proof. constructor. Qed.

Lemma onlyChunks_sendChunk (phase : ChunkType) (index : nat) (payload : JsValue) :
  onlyChunks (sendChunk phase index payload).
Proof. repeat constructor. Qed.

Lemma onlyChunks_bind {A B : Type} (m : M A) (f : A → M B) :
  onlyChunks m → (∀ a, onlyChunks (f a)) → onlyChunks (m ≫= f).
Proof.
  unfold onlyChunks. destruct m as [t [a|e]]; intros Hm Hf.
  - rewrite M_bind_ok. apply Forall_app. split; [exact Hm|apply Hf].
  - exact Hm.
Qed.

Lemma onlyChunks_try_catch {A : Type} (m : M A) (h : JsError → M A) :
  onlyChunks m → (∀ e, onlyChunks (h e)) → onlyChunks (try_catch m h).
Proof.
  unfold onlyChunks. destruct m as [t [a|e]]; intros Hm Hh.
  - exact Hm.
  - rewrite try_catch_fail. apply Forall_app. split; [exact Hm|apply Hh].
Qed.

Ltac only_chunks :=
  repeat first
    [ apply onlyChunks_ret | apply onlyChunks_throw | apply onlyChunks_lift
    | apply onlyChunks_sendChunk
    | apply onlyChunks_bind; [|intros ?]
    | apply onlyChunks_try_catch; [|intros ?]
    | case_match ].

Lemma onlyChunks_respondItems (index : nat) (its : list Item) :
  onlyChunks (respondItems index its).
Proof.
  revert index. induction its as [|it rest IH]; intros index; cbn [respondItems].
  - only_chunks.
  - repeat (apply onlyChunks_bind; [apply onlyChunks_sendChunk|intros ?]).
    apply onlyChunks_bind; [apply IH|intros ?]. only_chunks.
Qed.

Lemma onlyChunks_respond (this : IExecuteFunctions) (hs : Headers) (code : Z) :
  onlyChunks (respond lib this hs code).
Proof.
  unfold respond, respondJson, respondJwt, respondAllIncomingItems,
    respondFirstIncomingItem, respondText, respondBinary, sendTriplet.
  repeat case_match;
    repeat first
      [ apply onlyChunks_respondItems
      | apply onlyChunks_ret | apply onlyChunks_throw | apply onlyChunks_lift
      | apply onlyChunks_sendChunk
      | apply onlyChunks_bind; [|intros ?]
      | apply onlyChunks_try_catch; [|intros ?]
      | case_match ].
Qed.

Lemma onlyChunks_no_sendResponse (t : list Event) :
  Forall (λ ev, isChunk ev = true) t → sendResponseCount t = 0.
Proof.
  unfold sendResponseCount. induction 1 as [|ev rest Hev _ IH]; [reflexivity|].
  simpl. destruct ev; try discriminate. exact IH.
Qed.

(** ** The chat-trigger check (lines 533-565) *)

Lemma chatTrigger_found (this : IExecuteFunctions) (node : Node) :
  chatTrigger lib this = Some node →
  node ∈ getParentNodes this
  ∧ type node = CHAT_TRIGGER_NODE_TYPE lib ∧ disabled node = false.
Proof.
  unfold chatTrigger, connectedNodes. intros Hfind.
  apply find_some in Hfind as [Hin Hp].
  apply andb_true_iff in Hp as [Htype Hdis].
  apply String.eqb_eq in Htype. apply negb_true_iff in Hdis.
  split; [now apply list_elem_of_In|]. now split.
Qed.

(** A chat trigger is one of the webhook node types, so its presence
    satisfies the webhook-parent check. *)
Lemma chatTrigger_passes_check (this : IExecuteFunctions) (node : Node) :
  chatTrigger lib this = Some node →
  checkWebhookParent lib this = mret tt.
Proof.
  intros Hfind. apply chatTrigger_found in Hfind as (Hin & Htype & _).
  apply checkWebhookParent_connected. apply existsb_exists.
  exists node. split; [now apply list_elem_of_In|].
  apply isWebhookNode_spec. rewrite Htype. unfold WEBHOOK_NODE_TYPES.
  set_solver.
Qed.

Lemma respondBlock_dispatched (this : IExecuteFunctions)
    (t : list Event) (responseBody : JsValue) (hs : Headers) (code : Z) :
  respond lib this (configuredHeaders this) (defaultStatusCode this)
    = (t, Ok (responseBody, hs, code)) →
  respondBlock lib this =
    (t, Ok tt) ≫= λ _,
      deferred ← chatDeferred lib this;
      if deferred : bool then
        putExecutionToWait WAIT_INDEFINITELY;;
        mret (Returned [[ChatItem (chatMessage lib responseBody)]])
      else
        responseBody' ← sandboxBody lib this hs responseBody;
        (if negb (shouldStream this) || (respondWith (getNodeParameter this) =? "binary")
         then sendResponse (mkResponse responseBody' hs code) else mret tt);;
        mret (FellThrough (mkResponse responseBody' hs code)).
Proof.
  intros Hr. unfold respondBlock. rewrite Hr. rewrite !M_bind_ok. reflexivity.
Qed.

Lemma chatDeferred_absent (this : IExecuteFunctions) :
  chatTrigger lib this = None → chatDeferred lib this = mret false.
Proof. intros Hfind. unfold chatDeferred. now rewrite Hfind. Qed.

Lemma chatDeferred_configured (this : IExecuteFunctions) (node : Node)
    (p : NodeParameters) (o : ChatOptions) :
  chatTrigger lib this = Some node →
  parameters node = Some p →
  nodeOptions p = Some o →
  chatDeferred lib this = mret (bool_decide (responseMode o = Some "responseNodes")).
Proof.
  intros Hfind Hp Ho. unfold chatDeferred. rewrite Hfind.
  apply chatTrigger_found in Hfind as (_ & _ & Hdis). rewrite Hdis. simpl.
  unfold read_responseMode. now rewrite Hp, Ho.
Qed.

Lemma chatDeferred_without_options (this : IExecuteFunctions) (node : Node)
    (p : NodeParameters) :
  chatTrigger lib this = Some node →
  parameters node = Some p →
  nodeOptions p = None →
  chatDeferred lib this =
    throw (mkError TypeError
             "Cannot read properties of undefined (reading 'responseMode')").
Proof.
  intros Hfind Hp Ho. unfold chatDeferred. rewrite Hfind.
  apply chatTrigger_found in Hfind as (_ & _ & Hdis). rewrite Hdis. simpl.
  unfold read_responseMode. now rewrite Hp, Ho.
Qed.

(** C9 (as amended): [parameters.options.responseMode] is read unguarded
    on the chat trigger the lookup finds, the first enabled one among the
    parents. Whatever the mode, once its response body has been built (and
    its chunks, if any, streamed), that chat trigger carrying no [options]
    makes the [try] block fail with the runtime's TypeError, not a
    NodeOperationError; no response is sent, and the error reaches the host
    unless continue-on-fail is set. *)
Theorem chat_trigger_options_unguarded (this : IExecuteFunctions) (node : Node)
    (p : NodeParameters) (t : list Event) (responseBody : JsValue)
    (hs : Headers) (code : Z) :
  chatTrigger lib this = Some node →
  parameters node = Some p →
  nodeOptions p = None →
  respond lib this (configuredHeaders this) (defaultStatusCode this)
    = (t, Ok (responseBody, hs, code)) →
  ∃ e : JsError,
    errKind e = TypeError ∧
    tryBlock lib this = (t, Throw e) ∧
    Forall (λ ev, isChunk ev = true) t ∧
    (continueOnFail this = false → execute lib this = (t, Throw e)).
Proof.
  intros Hfind Hp Ho Hr.
  exists (mkError TypeError
            "Cannot read properties of undefined (reading 'responseMode')").
  assert (Ht : tryBlock lib this =
    (t, Throw (mkError TypeError
                 "Cannot read properties of undefined (reading 'responseMode')"))).
  { rewrite (tryBlock_checked _ (chatTrigger_passes_check _ _ Hfind)).
    rewrite (respondBlock_dispatched _ _ _ _ _ Hr).
    rewrite (chatDeferred_without_options _ _ _ Hfind Hp Ho).
    rewrite M_bind_ok. simpl. now rewrite app_nil_r. }
  split; [reflexivity|]. split; [exact Ht|]. split.
  - pose proof (onlyChunks_respond this (configuredHeaders this)
                  (defaultStatusCode this)) as Hc.
    unfold onlyChunks in Hc. now rewrite Hr in Hc.
  - intros Hcof. rewrite (execute_thrown _ _ _ Ht). now rewrite Hcof.
Qed.

(** The chat path taken: the execution is put to wait and the derived
    message is returned; no response is sent. *)
Lemma execute_deferred (this : IExecuteFunctions)
    (t : list Event) (responseBody : JsValue) (hs : Headers) (code : Z) :
  checkWebhookParent lib this = mret tt →
  chatDeferred lib this = mret true →
  respond lib this (configuredHeaders this) (defaultStatusCode this)
    = (t, Ok (responseBody, hs, code)) →
  execute lib this =
    (t ++ [PutExecutionToWait WAIT_INDEFINITELY],
     Ok [[ChatItem (chatMessage lib responseBody)]]).
Proof.
  intros Hc Hd Hr. unfold execute.
  rewrite (tryBlock_checked _ Hc), (respondBlock_dispatched _ _ _ _ _ Hr), Hd.
  rewrite M_bind_ok. simpl. now rewrite app_nil_r.
Qed.

Lemma sendResponseCount_app (t u : list Event) :
  sendResponseCount (t ++ u) = sendResponseCount t + sendResponseCount u.
Proof. unfold sendResponseCount. now rewrite List.filter_app, length_app. Qed.

(** ** The chat message (lines 548-561) *)

Lemma chatMessage_extracted (fields : list (string * JsValue)) (m : JsValue) :
  extractedField fields = Some m →
  m ≠ JStr EmptyString →
  chatMessage lib (JObj fields) = m.
Proof.
  unfold extractedField, chatMessage, coalesce, prop. simpl.
  intros Hm Hne.
  assert (Hkeep : (match m with JStr s => s =? EmptyString | _ => false end) = false).
  { destruct m as [| |b|n|s|l|f]; try reflexivity.
    destruct s; [contradiction|reflexivity]. }
  destruct (nullish (obj_get fields "output")) eqn:E1; simpl in Hm |- *.
  - destruct (nullish (obj_get fields "text")) eqn:E2; simpl in Hm |- *.
    + destruct (nullish (obj_get fields "message")) eqn:E3; simpl in Hm |- *.
      * discriminate.
      * inversion Hm; subst m. rewrite ?E3; simpl. now rewrite Hkeep.
    + inversion Hm; subst m. rewrite ?E2; simpl. now rewrite Hkeep.
  - inversion Hm; subst m. rewrite ?E1; simpl. now rewrite Hkeep.
Qed.

Lemma chatMessage_fallback (fields : list (string * JsValue)) (s : string) :
  extractedField fields = None ∨ extractedField fields = Some (JStr EmptyString) →
  fields ≠ [] →
  JSON_stringify lib (JObj fields) (Some 2%nat) = Ok s →
  chatMessage lib (JObj fields) = JStr s.
Proof.
  unfold extractedField, chatMessage, coalesce, prop. simpl.
  intros Hm Hne Hs.
  assert (Hlen : (0 <? length fields.*1)%nat = true).
  { destruct fields; [contradiction|reflexivity]. }
  destruct (nullish (obj_get fields "output")) eqn:E1; simpl in Hm |- *.
  - destruct (nullish (obj_get fields "text")) eqn:E2; simpl in Hm |- *.
    + destruct (nullish (obj_get fields "message")) eqn:E3; simpl in Hm |- *.
      * now rewrite Hlen, Hs.
      * destruct Hm as [Hm|Hm]; [discriminate|]. inversion Hm as [Hv].
        rewrite ?Hv. simpl. now rewrite Hlen, Hs.
    + destruct Hm as [Hm|Hm]; [discriminate|]. inversion Hm as [Hv].
      rewrite ?Hv. simpl. now rewrite Hlen, Hs.
  - destruct Hm as [Hm|Hm]; [discriminate|]. inversion Hm as [Hv].
    rewrite ?Hv. simpl. now rewrite Hlen, Hs.
Qed.

Lemma chatMessage_not_plain_object (responseBody : JsValue) :
  isArray responseBody = true ∨ typeof_object responseBody = false →
  chatMessage lib responseBody = JStr EmptyString.
Proof.
  intros [H|H]; destruct responseBody as [| |b|n|s|l|f];
    try discriminate; try reflexivity; unfold chatMessage; simpl.
  - now destruct b.
  - now destruct (negb (n =? 0)%Z).
  - now destruct (negb (s =? EmptyString)).
Qed.

Lemma chatMessage_nonempty_is_object (responseBody : JsValue) :
  chatMessage lib responseBody ≠ JStr EmptyString →
  ∃ fields, responseBody = JObj fields.
Proof.
  destruct responseBody as [| |b|n|s|l|f]; try (intros H; now contradiction H).
  - destruct b; intros H; now contradiction H.
  - unfold chatMessage. simpl. destruct (negb (n =? 0)%Z); intros H; now contradiction H.
  - unfold chatMessage. simpl. destruct (negb (s =? EmptyString)); intros H; now contradiction H.
  - intros _. now exists f.
Qed.

(** C4 (as amended): when the enabled chat trigger found among the parents
    is configured with responseMode 'responseNodes' and the mode's response
    body has been built, [execute] puts the execution to wait indefinitely,
    sends no response, and returns the derived message: for an object body
    the first of [output], [text], [message] that is neither undefined nor
    null, unless that value is the empty string; the two-space JSON
    stringification of a non-empty body when no such field exists or the
    value found is the empty string; the empty string when the body is
    empty or cannot be stringified. *)
Theorem chat_trigger_defers_response (this : IExecuteFunctions) (node : Node)
    (p : NodeParameters) (o : ChatOptions) (t : list Event)
    (responseBody : JsValue) (hs : Headers) (code : Z) :
  chatTrigger lib this = Some node →
  parameters node = Some p →
  nodeOptions p = Some o →
  responseMode o = Some "responseNodes" →
  respond lib this (configuredHeaders this) (defaultStatusCode this)
    = (t, Ok (responseBody, hs, code)) →
  execute lib this =
    (t ++ [PutExecutionToWait WAIT_INDEFINITELY],
     Ok [[ChatItem (chatMessage lib responseBody)]])
  ∧ sendResponseCount (trace (execute lib this)) = 0
  ∧ ∀ fields, responseBody = JObj fields →
      (∀ m, extractedField fields = Some m → m ≠ JStr EmptyString →
            chatMessage lib responseBody = m)
      ∧ (extractedField fields = None
           ∨ extractedField fields = Some (JStr EmptyString) →
         (∀ s, fields ≠ [] →
               JSON_stringify lib responseBody (Some 2%nat) = Ok s →
               chatMessage lib responseBody = JStr s)
         ∧ (fields = []
              ∨ (∃ e, JSON_stringify lib responseBody (Some 2%nat) = Throw e) →
            chatMessage lib responseBody = JStr EmptyString)).
Proof.
  intros Hfind Hp Ho Hmode Hr.
  assert (Hd : chatDeferred lib this = mret true).
  { rewrite (chatDeferred_configured _ _ _ _ Hfind Hp Ho), Hmode.
    now rewrite bool_decide_eq_true_2. }
  pose proof (execute_deferred _ _ _ _ _
                (chatTrigger_passes_check _ _ Hfind) Hd Hr) as He.
  split; [exact He|]. split.
  - rewrite He. unfold trace. simpl. rewrite sendResponseCount_app.
    pose proof (onlyChunks_respond this (configuredHeaders this)
                  (defaultStatusCode this)) as Hc.
    unfold onlyChunks, trace in Hc. rewrite Hr in Hc. simpl in Hc.
    now rewrite (onlyChunks_no_sendResponse _ Hc).
  - intros fields ->. split.
    + intros m Hm Hne. now apply chatMessage_extracted.
    + intros Hnone. split.
      * intros s Hne Hs. now apply chatMessage_fallback.
      * intros Hno. unfold extractedField, chatMessage, coalesce, prop in *.
        simpl in *.
        assert (Hmsg :
          (if nullish
                (if nullish
                      (if nullish (obj_get fields "output")
                       then obj_get fields "text" else obj_get fields "output")
                 then obj_get fields "message"
                 else if nullish (obj_get fields "output")
                      then obj_get fields "text" else obj_get fields "output")
           then JStr EmptyString
           else if nullish
                     (if nullish (obj_get fields "output")
                      then obj_get fields "text" else obj_get fields "output")
                then obj_get fields "message"
                else if nullish (obj_get fields "output")
                     then obj_get fields "text" else obj_get fields "output")
          = JStr EmptyString).
        { destruct (nullish (obj_get fields "output")) eqn:E1; simpl in Hnone.
          - destruct (nullish (obj_get fields "text")) eqn:E2; simpl in Hnone.
            + destruct (nullish (obj_get fields "message")) eqn:E3; simpl in Hnone.
              * reflexivity.
              * destruct Hnone as [Hn|Hn]; [discriminate|]. now inversion Hn.
            + destruct Hnone as [Hn|Hn]; [discriminate|]. inversion Hn as [Hv].
              rewrite Hv. reflexivity.
          - destruct Hnone as [Hn|Hn]; [discriminate|]. inversion Hn as [Hv].
            rewrite Hv. reflexivity. }
        rewrite Hmsg. simpl.
        destruct Hno as [->|[e He']]; [reflexivity|].
        rewrite He'. now destruct (0 <? length fields.*1)%nat.
Qed.

Lemma chatDeferred_true_found (this : IExecuteFunctions) :
  chatDeferred lib this = mret true → ∃ node, chatTrigger lib this = Some node.
Proof.
  unfold chatDeferred. destruct (chatTrigger lib this) as [node|].
  - intros _. now exists node.
  - discriminate.
Qed.

Lemma respond_allIncomingItems_array (this : IExecuteFunctions) (hs hs' : Headers)
    (code code' : Z) (t : list Event) (responseBody : JsValue) :
  respondWith (getNodeParameter this) = "allIncomingItems" →
  responseKey (options (getNodeParameter this)) = None →
  respond lib this hs code = (t, Ok (responseBody, hs', code')) →
  isArray responseBody = true.
Proof.
  intros Hmode Hkey. unfold respond. rewrite Hmode. simpl.
  unfold respondAllIncomingItems, putInField, opts. rewrite Hkey.
  destruct (respondItems 0 (items this)) as [t0 [js|e]]; simpl.
  - intros H. now inversion H.
  - discriminate.
Qed.

Lemma respond_text_not_object (this : IExecuteFunctions) (hs hs' : Headers)
    (code code' : Z) (t : list Event) (b : JsValue) :
  respondWith (getNodeParameter this) = "text" →
  typeof_object (responseBody (getNodeParameter this)) = false →
  respond lib this hs code = (t, Ok (b, hs', code')) →
  typeof_object b = false.
Proof.
  intros Hmode Hraw. unfold respond. rewrite Hmode. simpl. unfold respondText.
  destruct (shouldStream this); simpl; intros H;
    injection H as _ Hb _ _; rewrite <- Hb; now case_match.
Qed.

(** C8: on the chat-deferral path, a response body that is an array (as
    mode [allIncomingItems] builds without a put-in-field key) or is not an
    object at all (as the string of mode [text]) yields the empty message;
    a non-empty message comes only from a non-array object body. *)
Theorem chat_message_empty_unless_plain_object (this : IExecuteFunctions)
    (t : list Event) (builtBody : JsValue) (hs : Headers) (code : Z) :
  chatDeferred lib this = mret true →
  respond lib this (configuredHeaders this) (defaultStatusCode this)
    = (t, Ok (builtBody, hs, code)) →
  (isArray builtBody = true ∨ typeof_object builtBody = false →
   execute lib this =
     (t ++ [PutExecutionToWait WAIT_INDEFINITELY],
      Ok [[ChatItem (JStr EmptyString)]]))
  ∧ (chatMessage lib builtBody ≠ JStr EmptyString →
     ∃ fields, builtBody = JObj fields)
  ∧ (respondWith (getNodeParameter this) = "allIncomingItems" →
     responseKey (options (getNodeParameter this)) = None →
     isArray builtBody = true)
  ∧ (respondWith (getNodeParameter this) = "text" →
     typeof_object (responseBody (getNodeParameter this)) = false →
     typeof_object builtBody = false).
Proof.
  intros Hd Hr.
  destruct (chatDeferred_true_found _ Hd) as [node Hfind].
  pose proof (execute_deferred _ _ _ _ _
                (chatTrigger_passes_check _ _ Hfind) Hd Hr) as He.
  split; [|split; [|split]].
  - intros Hshape. rewrite He. now rewrite (chatMessage_not_plain_object _ Hshape).
  - apply chatMessage_nonempty_is_object.
  - intros Hmode Hkey. exact (respond_allIncomingItems_array _ _ _ _ _ _ _ Hmode Hkey Hr).
  - intros Hmode Hraw. exact (respond_text_not_object _ _ _ _ _ _ _ Hmode Hraw Hr).
Qed.

(** ** Falling through the [try] block (lines 567-584) *)

Lemma chatDeferred_silent (this : IExecuteFunctions) :
  trace (chatDeferred lib this) = [].
Proof.
  unfold chatDeferred. destruct (chatTrigger lib this) as [node|]; [|reflexivity].
  destruct (negb (disabled node)); [|reflexivity].
  now destruct (read_responseMode node).
Qed.

Lemma sandboxBody_silent (this : IExecuteFunctions) (hs : Headers) (b : JsValue) :
  trace (sandboxBody lib this hs b) = [].
Proof.
  unfold sandboxBody. case_match; [|reflexivity].
  now destruct (JSON_stringify lib b None).
Qed.

(** What a completed [try] block did: the dispatch built a body, no chat
    trigger deferred the response, and the response was sent unless the
    node streams a mode other than [binary]. *)
Lemma tryBlock_fellThrough (this : IExecuteFunctions) (t : list Event) (r : Response) :
  tryBlock lib this = (t, Ok (FellThrough r)) →
  ∃ (tr : list Event) (responseBody : JsValue),
    checkWebhookParent lib this = mret tt
    ∧ respond lib this (configuredHeaders this) (defaultStatusCode this)
        = (tr, Ok (responseBody, headers r, statusCode r))
    ∧ chatDeferred lib this = mret false
    ∧ sandboxBody lib this (headers r) responseBody = mret (body r)
    ∧ t = tr ++ (if negb (shouldStream this)
                    || (respondWith (getNodeParameter this) =? "binary")
                 then [SendResponse r] else []).
Proof.
  intros Ht.
  assert (Hc : checkWebhookParent lib this = mret tt).
  { unfold tryBlock in Ht. unfold checkWebhookParent in *.
    destruct (Qle_bool v1_1 (nodeVersion this)); [|reflexivity].
    destruct (negb _); [discriminate|reflexivity]. }
  rewrite (tryBlock_checked _ Hc) in Ht.
  destruct (respond lib this (configuredHeaders this) (defaultStatusCode this))
    as [tr [[[b hs] code]|e]] eqn:Hr.
  2: { rewrite (respondBlock_dispatch_throws _ _ _ Hr) in Ht. discriminate. }
  rewrite (respondBlock_dispatched _ _ _ _ _ Hr) in Ht.
  rewrite M_bind_ok in Ht.
  pose proof (chatDeferred_silent this) as Hsil.
  destruct (chatDeferred lib this) as [tc [d|e]] eqn:Hd;
    unfold trace in Hsil; simpl in Hsil; subst tc.
  2: { discriminate. }
  destruct d; [discriminate|].
  rewrite (M_bind_ok [] false) in Ht. unfold trace, result in Ht. simpl in Ht.
  pose proof (sandboxBody_silent this hs b) as Hsb.
  destruct (sandboxBody lib this hs b) as [ts [b'|e]] eqn:Hs;
    unfold trace in Hsb; simpl in Hsb; subst ts.
  2: { discriminate. }
  exists tr, b.
  destruct (negb (shouldStream this)
            || (respondWith (getNodeParameter this) =? "binary")) eqn:Hsend;
    simpl in Ht; inversion Ht; subst; simpl; rewrite ?app_nil_r; auto.
Qed.

(** ** Mode [text] (lines 482-495) *)

Lemma respond_text (this : IExecuteFunctions) (hs : Headers) (code : Z) :
  respondWith (getNodeParameter this) = "text" →
  ∃ tr, respond lib this hs code =
    (tr, Ok (if hasHtmlContentType lib hs
                || negb (truthy (header_get hs "content-type"))
             then JStr (sandboxHtmlResponse lib (responseBody (getNodeParameter this)))
             else responseBody (getNodeParameter this),
             hs, code)).
Proof.
  intros Hmode. unfold respond. rewrite Hmode. simpl. unfold respondText.
  destruct (shouldStream this); eexists; reflexivity.
Qed.

Lemma sandboxBody_text (this : IExecuteFunctions) (hs : Headers) (b : JsValue) :
  respondWith (getNodeParameter this) = "text" →
  sandboxBody lib this hs b = mret b.
Proof.
  intros Hmode. unfold sandboxBody. rewrite Hmode. simpl.
  now rewrite andb_false_r.
Qed.

(** Headers configured under other names leave [content-type] unset. *)
Lemma configuredHeaders_without_content_type (this : IExecuteFunctions) :
  (∀ entries, responseHeaders (options (getNodeParameter this)) = Some entries →
     Forall (λ header, header_key header ≠ "content-type") entries) →
  configuredHeaders this !! "content-type" = None.
Proof.
  unfold configuredHeaders, opts. intros Hentries.
  destruct (responseHeaders (options (getNodeParameter this))) as [entries|];
    [|apply lookup_empty].
  specialize (Hentries entries eq_refl).
  assert (Hgen : ∀ acc : Headers, acc !! "content-type" = None →
    fold_left (λ hs header, <[header_key header := header_value header]> hs)
              entries acc !! "content-type" = None).
  { induction Hentries as [|header rest Hkey _ IH]; intros acc Hacc; simpl.
    - exact Hacc.
    - apply IH. rewrite lookup_insert_ne; [exact Hacc|exact Hkey]. }
  apply Hgen, lookup_empty.
Qed.

(** C6: in mode [text] the body of the response is the sanitized form of
    the configured string when no content-type header is configured or the
    configured one is HTML-rendering, and the configured string itself when
    a non-HTML content-type is set. *)
Theorem text_body_sanitized_unless_non_html (this : IExecuteFunctions)
    (t : list Event) (r : Response) :
  respondWith (getNodeParameter this) = "text" →
  tryBlock lib this = (t, Ok (FellThrough r)) →
  let rawBody := responseBody (getNodeParameter this) in
  (configuredHeaders this !! "content-type" = None →
   body r = JStr (sandboxHtmlResponse lib rawBody))
  ∧ (∀ contentType,
       configuredHeaders this !! "content-type" = Some (Some contentType) →
       isHtmlRenderedContentType lib contentType = true →
       body r = JStr (sandboxHtmlResponse lib rawBody))
  ∧ (∀ contentType,
       configuredHeaders this !! "content-type" = Some (Some contentType) →
       contentType ≠ EmptyString →
       isHtmlRenderedContentType lib contentType = false →
       body r = rawBody).
Proof.
  intros Hmode Ht rawBody.
  destruct (tryBlock_fellThrough _ _ _ Ht) as (tr & b & _ & Hr & _ & Hs & _).
  destruct (respond_text this (configuredHeaders this) (defaultStatusCode this) Hmode)
    as [tr' Hr'].
  rewrite Hr' in Hr. inversion Hr as [[Htr Hb Hh Hcode]].
  rewrite (sandboxBody_text _ _ _ Hmode) in Hs. inversion Hs as [Hbody].
  rewrite Hbody in Hb. clear Hr Hs Hr'.
  unfold hasHtmlContentType, header_get in Hb.
  split; [|split].
  - intros Hnone. rewrite Hnone in Hb. simpl in Hb. now symmetry.
  - intros ct Hct Hhtml. rewrite Hct in Hb. simpl in Hb. rewrite Hhtml in Hb.
    destruct (ct =? EmptyString); simpl in Hb; now symmetry.
  - intros ct Hct Hne Hhtml. rewrite Hct in Hb. simpl in Hb. rewrite Hhtml in Hb.
    apply String.eqb_neq in Hne. rewrite Hne in Hb. simpl in Hb. now symmetry.
Qed.

(** ** Mode [binary] (lines 496-522) *)





(** ** The failure policy (lines 585-596) *)

Lemma constructExecutionMetaData_error (message : string) (itemData : list PairedItemData) :
  constructExecutionMetaData [ErrorItem message []] itemData
  = [ErrorItem message itemData].
Proof. reflexivity. Qed.

Lemma generatePairedItemData_length (n : nat) :
  length (generatePairedItemData n) = n.
Proof. unfold generatePairedItemData. now rewrite length_fmap, length_seq. Qed.

Lemma execute_never_throws_on_continue (this : IExecuteFunctions) :
  continueOnFail this = true →
  ∃ out, result (execute lib this) = Ok out.
Proof.
  intros Hcof. unfold execute.
  destruct (tryBlock lib this) as [t [r|e]].
  - rewrite try_catch_ok, M_bind_ok. destruct r as [out|response].
    + now exists out.
    + simpl. repeat case_match; eexists; reflexivity.
  - rewrite try_catch_fail. unfold catchBlock. rewrite Hcof. simpl.
    eexists; reflexivity.
Qed.

Lemma invalid_json_throws (this : IExecuteFunctions) (e0 : JsError) :
  respondWith (getNodeParameter this) = "json" →
  checkWebhookParent lib this = mret tt →
  truthy (responseBody (getNodeParameter this)) = true →
  typeof_object (responseBody (getNodeParameter this)) = false →
  jsonParse lib (responseBody (getNodeParameter this)) = Throw e0 →
  tryBlock lib this = throw invalidJsonError.
Proof.
  intros Hmode Hc Htruthy Hobj Hparse. rewrite (tryBlock_checked _ Hc).
  apply respondBlock_dispatch_throws. unfold respond. rewrite Hmode. simpl.
  unfold respondJson. now rewrite Htruthy, Hobj, Hparse.
Qed.

(** C3 (as amended): with continue-on-fail configured, [execute] never
    lets an error reach the host; when the [try] block throws, with
    whatever it had delivered, [execute] returns a single output branch
    holding a single item, which carries [{error: <the error's message>}]
    and is paired with every input item, in input order. *)
Theorem continue_on_fail_yields_one_error_item (this : IExecuteFunctions) :
  continueOnFail this = true →
  (∃ out, result (execute lib this) = Ok out)
  ∧ ∀ (t : list Event) (e : JsError),
      tryBlock lib this = (t, Throw e) →
      execute lib this
      = (t, Ok [[ErrorItem (errMessage e)
                   (mkPaired <$> seq 0 (length (getInputData this)))]]).
Proof.
  intros Hcof. split; [now apply execute_never_throws_on_continue|].
  intros t e Ht.
  rewrite (execute_thrown _ _ _ Ht), Hcof.
  now rewrite constructExecutionMetaData_error.
Qed.

(** ** Deliveries (lines 376-377, 428-495, 582-584) *)

Lemma execute_fellThrough (this : IExecuteFunctions) (t : list Event) (r : Response) :
  tryBlock lib this = (t, Ok (FellThrough r)) →
  trace (execute lib this) = t ∧ ∃ out, result (execute lib this) = Ok out.
Proof.
  intros Ht. unfold execute. rewrite Ht, try_catch_ok, M_bind_ok. simpl.
  repeat case_match; simpl; rewrite app_nil_r; eauto.
Qed.

(** Without streaming, a completed [try] block has called [sendResponse]
    exactly once. *)
Lemma sends_once_without_streaming (this : IExecuteFunctions)
    (t : list Event) (r : Response) :
  shouldStream this = false →
  tryBlock lib this = (t, Ok (FellThrough r)) →
  sendResponseCount t = 1.
Proof.
  intros Hs Ht.
  destruct (tryBlock_fellThrough _ _ _ Ht) as (tr & b & _ & Hr & _ & _ & ->).
  rewrite Hs. simpl. rewrite sendResponseCount_app.
  pose proof (onlyChunks_respond this (configuredHeaders this)
                (defaultStatusCode this)) as Hc.
  unfold onlyChunks, trace in Hc. rewrite Hr in Hc. simpl in Hc.
  now rewrite (onlyChunks_no_sendResponse _ Hc).
Qed.

Lemma respond_redirect (this : IExecuteFunctions) (hs : Headers) (code : Z) :
  respondWith (getNodeParameter this) = "redirect" →
  respond lib this hs code =
    mret (JUndefined,
          <["location" := Some (redirectURL (getNodeParameter this))]> hs,
          default 307%Z (responseCode (options (getNodeParameter this)))).
Proof. intros Hmode. unfold respond. now rewrite Hmode. Qed.

Lemma respond_noData (this : IExecuteFunctions) (hs : Headers) (code : Z) :
  respondWith (getNodeParameter this) = "noData" →
  respond lib this hs code = mret (JUndefined, hs, code).
Proof. intros Hmode. unfold respond. now rewrite Hmode. Qed.

Lemma sandboxBody_undefined (this : IExecuteFunctions) (hs : Headers) :
  sandboxBody lib this hs JUndefined = mret JUndefined.
Proof. unfold sandboxBody. simpl. now rewrite andb_false_r. Qed.

Lemma respondBlock_unsent (this : IExecuteFunctions) (hs : Headers) (code : Z) :
  shouldStream this = true →
  (respondWith (getNodeParameter this) =? "binary") = false →
  chatTrigger lib this = None →
  respond lib this (configuredHeaders this) (defaultStatusCode this)
    = mret (JUndefined, hs, code) →
  respondBlock lib this = mret (FellThrough (mkResponse JUndefined hs code)).
Proof.
  intros Hs Hbin Hchat Hr.
  rewrite (respondBlock_dispatched _ _ _ _ _ Hr).
  rewrite (chatDeferred_absent _ Hchat), sandboxBody_undefined, Hs, Hbin.
  reflexivity.
Qed.

(** C1, where the code departs from it: a node that streams answers mode
    [redirect] and mode [noData] with nothing at all. The execution
    completes without error and without deferring to a chat trigger, yet
    neither a chunk nor a response reaches the host. *)
Theorem streaming_redirect_noData_deliver_nothing (this : IExecuteFunctions) :
  shouldStream this = true →
  respondWith (getNodeParameter this) = "redirect"
    ∨ respondWith (getNodeParameter this) = "noData" →
  checkWebhookParent lib this = mret tt →
  chatTrigger lib this = None →
  trace (execute lib this) = []
  ∧ deliveries (trace (execute lib this)) = 0
  ∧ ∃ out, result (execute lib this) = Ok out.
Proof.
  intros Hs Hmode Hc Hchat.
  assert (∃ r, tryBlock lib this = ([], Ok (FellThrough r))) as [r Ht].
  { rewrite (tryBlock_checked _ Hc). destruct Hmode as [Hmode|Hmode].
    - eexists. apply respondBlock_unsent; try assumption.
      + now rewrite Hmode.
      + now apply respond_redirect.
    - eexists. apply respondBlock_unsent; try assumption.
      + now rewrite Hmode.
      + now apply respond_noData. }
  destruct (execute_fellThrough _ _ _ Ht) as [Htrace Hout].
  rewrite Htrace. split; [reflexivity|]. split; [reflexivity|exact Hout].
Qed.

(** ** Chunks (lines 428-432, 453-457, 464-469, 477-481, 491-495) *)

Lemma respondItems_chunks (index : nat) (its : list Item) :
  respondItems index its = (itemChunks index its, Ok (json <$> its)).
Proof.
  revert index. induction its as [|it rest IH]; intros index; [reflexivity|].
  cbn [respondItems itemChunks]. rewrite IH.
  unfold sendChunk, emit, mbind, M_bind, mret, M_ret. simpl.
  now rewrite app_nil_r.
Qed.

Lemma respond_allIncomingItems (this : IExecuteFunctions) (hs : Headers) (code : Z) :
  respondWith (getNodeParameter this) = "allIncomingItems" →
  respond lib this hs code =
    (itemChunks 0 (getInputData this),
     Ok (putInField lib this (JArr (json <$> getInputData this)), hs, code)).
Proof.
  intros Hmode. unfold respond. rewrite Hmode. simpl.
  unfold respondAllIncomingItems, items. rewrite respondItems_chunks. simpl.
  now rewrite !app_nil_r.
Qed.

Lemma trace_bind_prefix {A B : Type} (m : M A) (f : A → M B) :
  ∃ rest, trace (m ≫= f) = trace m ++ rest.
Proof.
  destruct m as [t [a|e]].
  - rewrite M_bind_ok. now eexists.
  - exists []. simpl. now rewrite app_nil_r.
Qed.

Lemma trace_try_catch_prefix {A : Type} (m : M A) (h : JsError → M A) :
  ∃ rest, trace (try_catch m h) = trace m ++ rest.
Proof.
  destruct m as [t [a|e]].
  - exists []. simpl. now rewrite app_nil_r.
  - rewrite try_catch_fail. now eexists.
Qed.

Lemma execute_trace_prefix (this : IExecuteFunctions) (t : list Event)
    (responseBody : JsValue) (hs : Headers) (code : Z) :
  checkWebhookParent lib this = mret tt →
  respond lib this (configuredHeaders this) (defaultStatusCode this)
    = (t, Ok (responseBody, hs, code)) →
  ∃ rest, trace (execute lib this) = t ++ rest.
Proof.
  intros Hc Hr. unfold execute.
  match goal with
  | |- ∃ rest, trace (?m ≫= ?f) = _ =>
      destruct (trace_bind_prefix m f) as [rest1 H1]
  end.
  destruct (trace_try_catch_prefix (tryBlock lib this) (catchBlock this))
    as [rest2 H2].
  rewrite H1, H2, (tryBlock_checked _ Hc), (respondBlock_dispatched _ _ _ _ _ Hr).
  rewrite M_bind_ok. unfold trace at 1. simpl.
  eexists. rewrite <- !app_assoc. reflexivity.
Qed.

(** Outside mode [allIncomingItems] every [sendChunk] call is guarded by
    [shouldStream]. *)
Lemma respond_silent_without_streaming (this : IExecuteFunctions)
    (hs : Headers) (code : Z) :
  shouldStream this = false →
  respondWith (getNodeParameter this) ≠ "allIncomingItems" →
  trace (respond lib this hs code) = [].
Proof.
  intros Hs Hmode. apply String.eqb_neq in Hmode.
  unfold respond, respondJson, respondJwt, respondFirstIncomingItem,
    respondText, respondBinary. cbv zeta. rewrite Hs, Hmode.
  repeat case_match; try reflexivity;
    unfold lift, try_catch, mbind, M_bind, mret, M_ret, throw;
    repeat case_match; simplify_eq; reflexivity.
Qed.

(** Mode [binary], and the modes that build no body, never call
    [sendChunk]. *)
Lemma respond_never_streams (this : IExecuteFunctions) (hs : Headers) (code : Z) :
  respondWith (getNodeParameter this) ∉
    ["json"; "text"; "jwt"; "allIncomingItems"; "firstIncomingItem"] →
  trace (respond lib this hs code) = [].
Proof.
  intros Hmode.
  assert (Hne : ∀ m, m ∈ ["json"; "text"; "jwt"; "allIncomingItems"; "firstIncomingItem"] →
                     (respondWith (getNodeParameter this) =? m) = false).
  { intros m Hm. apply String.eqb_neq. intros Heq. rewrite Heq in Hmode.
    contradiction. }
  unfold respond. cbv zeta.
  rewrite (Hne "json"), (Hne "jwt"), (Hne "allIncomingItems"),
    (Hne "firstIncomingItem"), (Hne "text") by set_solver.
  unfold respondBinary.
  repeat case_match; try reflexivity;
    unfold lift, try_catch, mbind, M_bind, mret, M_ret, throw;
    repeat case_match; simplify_eq; reflexivity.
Qed.

(** C2, where the code departs from it: mode [allIncomingItems] emits the
    begin/item/end triplet of every input item first thing, whether or not
    the node streams. *)
Theorem allIncomingItems_chunks_unguarded (this : IExecuteFunctions) :
  respondWith (getNodeParameter this) = "allIncomingItems" →
  shouldStream this = false →
  checkWebhookParent lib this = mret tt →
  ∃ rest, trace (execute lib this) = itemChunks 0 (getInputData this) ++ rest.
Proof.
  intros Hmode _ Hc.
  exact (execute_trace_prefix _ _ _ _ _ Hc
           (respond_allIncomingItems _ (configuredHeaders this)
              (defaultStatusCode this) Hmode)).
Qed.

(** ** Outcomes of the [try] block (lines 379-584) *)

Lemma checkWebhookParent_silent (this : IExecuteFunctions) :
  trace (checkWebhookParent lib this) = [].
Proof. unfold checkWebhookParent. now repeat case_match. Qed.

(** The check passed and the dispatch built a body: what is left of the
    [try] block. *)
Lemma tryBlock_unfold (this : IExecuteFunctions) (t : list Event) (o : Result TryResult) :
  tryBlock lib this = (t, o) →
  (t = [] ∧ ∃ e, o = Throw e ∧ checkWebhookParent lib this = throw e)
  ∨ (checkWebhookParent lib this = mret tt ∧ respondBlock lib this = (t, o)).
Proof.
  intros Ht. unfold tryBlock in Ht.
  pose proof (checkWebhookParent_silent this) as Hsil.
  destruct (checkWebhookParent lib this) as [tc [[]|ec]];
    unfold trace in Hsil; simpl in Hsil; subst tc.
  - right. split; [reflexivity|].
    change ([], Ok ()) with (mret tt : M unit) in Ht.
    now rewrite (M_bind_ret tt (λ _, respondBlock lib this)) in Ht.
  - left. inversion Ht. split; [reflexivity|]. now exists ec.
Qed.

Lemma tryBlock_thrown (this : IExecuteFunctions) (t : list Event) (e : JsError) :
  tryBlock lib this = (t, Throw e) →
  Forall (λ ev, isChunk ev = true) t.
Proof.
  intros Ht.
  destruct (tryBlock_unfold _ _ _ Ht) as [[-> _]|[_ Hrb]]; [constructor|].
  clear Ht. rename Hrb into Ht.
  pose proof (onlyChunks_respond this (configuredHeaders this)
                (defaultStatusCode this)) as Hoc.
  unfold onlyChunks, trace in Hoc.
  destruct (respond lib this (configuredHeaders this) (defaultStatusCode this))
    as [tr [[[b hs] code]|er]] eqn:Hr; simpl in Hoc.
  2: { rewrite (respondBlock_dispatch_throws _ _ _ Hr) in Ht.
       inversion Ht; subst. exact Hoc. }
  rewrite (respondBlock_dispatched _ _ _ _ _ Hr), M_bind_ok in Ht.
  pose proof (chatDeferred_silent this) as Hsil.
  destruct (chatDeferred lib this) as [td [d|ed]] eqn:Hd;
    unfold trace in Hsil; simpl in Hsil; subst td.
  2: { inversion Ht; subst. now rewrite app_nil_r. }
  destruct d; [discriminate|].
  rewrite (M_bind_ok [] false) in Ht. unfold trace, result in Ht. simpl in Ht.
  pose proof (sandboxBody_silent this hs b) as Hsb.
  destruct (sandboxBody lib this hs b) as [ts [b'|es]] eqn:Hs;
    unfold trace in Hsb; simpl in Hsb; subst ts.
  - destruct (negb (shouldStream this) || _); discriminate.
  - inversion Ht; subst. now rewrite app_nil_r.
Qed.

(** X1: a [try] block that throws has called neither [sendResponse] nor
    [putExecutionToWait]: whatever was delivered before the failure is
    chunks only. *)
Theorem failure_sends_no_response (this : IExecuteFunctions)
    (t : list Event) (e : JsError) :
  tryBlock lib this = (t, Throw e) →
  Forall (λ ev, isChunk ev = true) t
  ∧ sendResponseCount (trace (execute lib this)) = 0.
Proof.
  intros Ht.
  assert (Hchunks : Forall (λ ev, isChunk ev = true) t).
  { exact (tryBlock_thrown _ _ _ Ht). }
  split; [exact Hchunks|].
  rewrite (execute_thrown _ _ _ Ht).
  destruct (continueOnFail this); unfold trace; simpl;
    now apply onlyChunks_no_sendResponse.
Qed.

Lemma tryBlock_returned (this : IExecuteFunctions)
    (t : list Event) (out : list (list OutputItem)) :
  tryBlock lib this = (t, Ok (Returned out)) →
  ∃ (tr : list Event) (message : JsValue),
    t = tr ++ [PutExecutionToWait WAIT_INDEFINITELY]
    ∧ Forall (λ ev, isChunk ev = true) tr
    ∧ out = [[ChatItem message]]
    ∧ chatDeferred lib this = mret true.
Proof.
  intros Ht.
  destruct (tryBlock_unfold _ _ _ Ht) as [[_ (e & He & _)]|[_ Hrb]]; [discriminate|].
  clear Ht. rename Hrb into Ht.
  pose proof (onlyChunks_respond this (configuredHeaders this)
                (defaultStatusCode this)) as Hoc.
  unfold onlyChunks, trace in Hoc.
  destruct (respond lib this (configuredHeaders this) (defaultStatusCode this))
    as [tr [[[b hs] code]|er]] eqn:Hr; simpl in Hoc.
  2: { rewrite (respondBlock_dispatch_throws _ _ _ Hr) in Ht. discriminate. }
  rewrite (respondBlock_dispatched _ _ _ _ _ Hr), M_bind_ok in Ht.
  pose proof (chatDeferred_silent this) as Hsil.
  destruct (chatDeferred lib this) as [td [d|ed]] eqn:Hd;
    unfold trace in Hsil; simpl in Hsil; subst td.
  2: { discriminate. }
  destruct d.
  - simpl in Ht. inversion Ht; subst.
    exists tr, (chatMessage lib b). repeat split; assumption.
  - rewrite (M_bind_ok [] false) in Ht. unfold trace, result in Ht. simpl in Ht.
    destruct (sandboxBody lib this hs b) as [ts [b'|es]]; [|discriminate].
    destruct (negb (shouldStream this) || _); discriminate.
Qed.

(** X2: the only [return] inside the [try] block is the chat path's: its
    value is the single chat item, [putExecutionToWait] is the last call
    made, exactly once, and everything before it is chunks. *)
Theorem returned_is_chat_deferral (this : IExecuteFunctions)
    (t : list Event) (out : list (list OutputItem)) :
  tryBlock lib this = (t, Ok (Returned out)) →
  ∃ (tr : list Event) (message : JsValue),
    t = tr ++ [PutExecutionToWait WAIT_INDEFINITELY]
    ∧ Forall (λ ev, isChunk ev = true) tr
    ∧ out = [[ChatItem message]]
    ∧ execute lib this = (t, Ok [[ChatItem message]])
    ∧ ∃ node, chatTrigger lib this = Some node.
Proof.
  intros Ht.
  destruct (tryBlock_returned _ _ _ Ht) as (tr & message & -> & Hchunks & -> & Hd).
  exists tr, message. split; [reflexivity|]. split; [exact Hchunks|].
  split; [reflexivity|]. split.
  - unfold execute. rewrite Ht, try_catch_ok, M_bind_ok. simpl.
    now rewrite app_nil_r.
  - now apply chatDeferred_true_found.
Qed.

(** ** Streaming and sending (lines 376-377, 428-495, 582-584) *)

Lemma shouldStream_off (this : IExecuteFunctions) :
  (typeVersion this < v1_5)%Q
    ∨ isStreaming this = false
    ∨ enableStreaming (options (getNodeParameter this)) = Some false →
  shouldStream this = false.
Proof.
  unfold shouldStream, nodeVersion, opts. intros [Hv|[Hs|He]].
  - now rewrite (Qle_bool_false _ _ Hv).
  - rewrite Hs. now rewrite andb_false_r.
  - rewrite He. now rewrite andb_false_r.
Qed.

(** X3: below version 1.5, on a host that does not stream, or with the
    streaming option switched off, a completed [try] block ends with its one
    and only [sendResponse] call; outside mode [allIncomingItems] that call
    is all it delivers. *)
Theorem without_streaming_response_sent_last (this : IExecuteFunctions)
    (t : list Event) (r : Response) :
  (typeVersion this < v1_5)%Q
    ∨ isStreaming this = false
    ∨ enableStreaming (options (getNodeParameter this)) = Some false →
  tryBlock lib this = (t, Ok (FellThrough r)) →
  ∃ tr, t = tr ++ [SendResponse r]
        ∧ Forall (λ ev, isChunk ev = true) tr
        ∧ (respondWith (getNodeParameter this) ≠ "allIncomingItems" → tr = []).
Proof.
  intros Hoff Ht. apply shouldStream_off in Hoff.
  destruct (tryBlock_fellThrough _ _ _ Ht) as (tr & b & _ & Hr & _ & _ & ->).
  rewrite Hoff. simpl. exists tr. split; [reflexivity|].
  pose proof (onlyChunks_respond this (configuredHeaders this)
                (defaultStatusCode this)) as Hc.
  unfold onlyChunks, trace in Hc. rewrite Hr in Hc. simpl in Hc.
  split; [exact Hc|]. intros Hmode.
  pose proof (respond_silent_without_streaming this (configuredHeaders this)
                (defaultStatusCode this) Hoff Hmode) as Hsil.
  unfold trace in Hsil. now rewrite Hr in Hsil.
Qed.

Lemma respond_streamed (this : IExecuteFunctions) (hs hs' : Headers) (code code' : Z)
    (tr : list Event) (b : JsValue) :
  shouldStream this = true →
  respond lib this hs code = (tr, Ok (b, hs', code')) →
  (respondWith (getNodeParameter this) = "json"
     ∨ respondWith (getNodeParameter this) = "jwt" → tr = chunkTriplet 0 b)
  ∧ (respondWith (getNodeParameter this) = "text" →
     tr = chunkTriplet 0 (responseBody (getNodeParameter this)))
  ∧ (respondWith (getNodeParameter this) = "firstIncomingItem" →
     ∃ first rest, getInputData this = first :: rest
                   ∧ tr = chunkTriplet 0 (json first)
                   ∧ b = putInField lib this (json first)).
Proof.
  intros Hs Hr. split; [|split].
  - intros [Hmode|Hmode]; unfold respond in Hr; rewrite Hmode in Hr; simpl in Hr.
    + unfold respondJson in Hr. rewrite Hs in Hr.
      destruct (truthy _); [destruct (typeof_object _);
        [|destruct (jsonParse lib _)]|]; simpl in Hr; now inversion Hr.
    + unfold respondJwt in Hr. rewrite Hs in Hr.
      destruct (getCredentials this) as [c|]; simpl in Hr; [|discriminate].
      destruct (jwt_sign lib _ _ _); simpl in Hr; [|discriminate].
      now inversion Hr.
  - intros Hmode. unfold respond in Hr. rewrite Hmode in Hr. simpl in Hr.
    unfold respondText in Hr. rewrite Hs in Hr. simpl in Hr. now inversion Hr.
  - intros Hmode. unfold respond in Hr. rewrite Hmode in Hr. simpl in Hr.
    unfold respondFirstIncomingItem, items in Hr. rewrite Hs in Hr.
    destruct (getInputData this) as [|first rest]; [discriminate|].
    simpl in Hr. exists first, rest. now inversion Hr.
Qed.

(** X4: a node that streams answers the modes [json], [jwt],
    [firstIncomingItem] and [text] with exactly one begin/item/end triplet
    at index 0, and never calls [sendResponse] for them. *)
Theorem streaming_emits_one_triplet (this : IExecuteFunctions)
    (t : list Event) (r : Response) :
  shouldStream this = true →
  respondWith (getNodeParameter this) ∈ ["json"; "jwt"; "firstIncomingItem"; "text"] →
  tryBlock lib this = (t, Ok (FellThrough r)) →
  (∃ payload, t = chunkTriplet 0 payload) ∧ sendResponseCount t = 0.
Proof.
  intros Hs Hmode Ht.
  destruct (tryBlock_fellThrough _ _ _ Ht) as (tr & b & _ & Hr & _ & _ & ->).
  destruct (respond_streamed _ _ _ _ _ _ _ Hs Hr) as (Hjj & Htext & Hfirst).
  assert (Hbin : (respondWith (getNodeParameter this) =? "binary") = false).
  { apply String.eqb_neq. intros Heq. rewrite Heq in Hmode.
    repeat (apply elem_of_cons in Hmode as [Hmode|Hmode]; [discriminate|]).
    now apply elem_of_nil in Hmode. }
  rewrite Hs, Hbin. simpl. rewrite app_nil_r.
  assert (∃ payload, tr = chunkTriplet 0 payload) as [payload ->].
  { apply elem_of_cons in Hmode as [Hm|Hmode]; [eexists; apply Hjj; now left|].
    apply elem_of_cons in Hmode as [Hm|Hmode]; [eexists; apply Hjj; now right|].
    apply elem_of_cons in Hmode as [Hm|Hmode].
    { destruct (Hfirst Hm) as (first & rest & _ & -> & _). now eexists. }
    apply elem_of_cons in Hmode as [Hm|Hmode]; [eexists; now apply Htext|].
    now apply elem_of_nil in Hmode. }
  split; [now exists payload|reflexivity].
Qed.

(** X5: when the node streams mode [text], what reaches the host is the
    configured string as it is: the triplet carries the raw body, and the
    sanitized body of the response object is never sent. *)
Theorem streamed_text_is_not_sanitized (this : IExecuteFunctions)
    (t : list Event) (r : Response) :
  shouldStream this = true →
  respondWith (getNodeParameter this) = "text" →
  configuredHeaders this !! "content-type" = None →
  tryBlock lib this = (t, Ok (FellThrough r)) →
  t = chunkTriplet 0 (responseBody (getNodeParameter this))
  ∧ body r = JStr (sandboxHtmlResponse lib (responseBody (getNodeParameter this))).
Proof.
  intros Hs Hmode Hct Ht.
  destruct (tryBlock_fellThrough _ _ _ Ht) as (tr & b & _ & Hr & _ & Hsb & ->).
  destruct (respond_streamed _ _ _ _ _ _ _ Hs Hr) as (_ & Htext & _).
  rewrite (Htext Hmode), Hs, Hmode. simpl.
  split; [reflexivity|].
  destruct (respond_text this (configuredHeaders this) (defaultStatusCode this) Hmode)
    as [tr' Hr'].
  rewrite Hr' in Hr. injection Hr as _ Hb _ _.
  rewrite (sandboxBody_text _ _ _ Hmode) in Hsb. injection Hsb as Hbody.
  rewrite <- Hbody, <- Hb. unfold hasHtmlContentType, header_get.
  now rewrite Hct.
Qed.

(** X6: when the node streams mode [firstIncomingItem], the put-in-field
    key applies to the response object only: the triplet carries the first
    item's JSON itself. *)
Theorem streamed_first_item_ignores_responseKey (this : IExecuteFunctions)
    (t : list Event) (r : Response) (first : Item) (rest : list Item) :
  shouldStream this = true →
  respondWith (getNodeParameter this) = "firstIncomingItem" →
  getInputData this = first :: rest →
  hasHtmlContentType lib (configuredHeaders this) = false →
  tryBlock lib this = (t, Ok (FellThrough r)) →
  t = chunkTriplet 0 (json first)
  ∧ body r = putInField lib this (json first).
Proof.
  intros Hs Hmode Hitems Hhtml Ht.
  destruct (tryBlock_fellThrough _ _ _ Ht) as (tr & b & _ & Hr & _ & Hsb & ->).
  destruct (respond_streamed _ _ _ _ _ _ _ Hs Hr) as (_ & _ & Hfirst).
  destruct (Hfirst Hmode) as (first' & rest' & Hitems' & -> & ->).
  rewrite Hitems in Hitems'. inversion Hitems'; subst first' rest'.
  rewrite Hs, Hmode. simpl. split; [reflexivity|].
  assert (Hh : headers r = configuredHeaders this).
  { unfold respond in Hr. rewrite Hmode in Hr. simpl in Hr.
    destruct (respondFirstIncomingItem lib this) as [t0 [b0|e0]]; simpl in Hr;
      now inversion Hr. }
  unfold sandboxBody in Hsb. rewrite Hh, Hhtml in Hsb. simpl in Hsb.
  now inversion Hsb.
Qed.

(** ** What the dispatch leaves of the headers and the status code *)

Lemma respond_keeps (this : IExecuteFunctions) (hs hs' : Headers) (code code' : Z)
    (tr : list Event) (b : JsValue) :
  respond lib this hs code = (tr, Ok (b, hs', code')) →
  (respondWith (getNodeParameter this) ≠ "redirect" → code' = code)
  ∧ (respondWith (getNodeParameter this) ≠ "redirect" →
     respondWith (getNodeParameter this) ≠ "binary" → hs' = hs).
Proof.
  intros Hr. unfold respond in Hr. cbv zeta in Hr.
  destruct (respondWith (getNodeParameter this) =? "json") eqn:E1.
  { destruct (respondJson lib this) as [t0 [b0|e0]]; simpl in Hr; now inversion Hr. }
  destruct (respondWith (getNodeParameter this) =? "jwt") eqn:E2.
  { destruct (respondJwt lib this) as [t0 [b0|e0]]; simpl in Hr; now inversion Hr. }
  destruct (respondWith (getNodeParameter this) =? "allIncomingItems") eqn:E3.
  { destruct (respondAllIncomingItems lib this) as [t0 [b0|e0]]; simpl in Hr;
      now inversion Hr. }
  destruct (respondWith (getNodeParameter this) =? "firstIncomingItem") eqn:E4.
  { destruct (respondFirstIncomingItem lib this) as [t0 [b0|e0]]; simpl in Hr;
      now inversion Hr. }
  destruct (respondWith (getNodeParameter this) =? "text") eqn:E5.
  { destruct (respondText lib this hs) as [t0 [b0|e0]]; simpl in Hr;
      now inversion Hr. }
  destruct (respondWith (getNodeParameter this) =? "binary") eqn:E6.
  { apply String.eqb_eq in E6.
    destruct (respondBinary lib this hs) as [t0 [[b0 h0]|e0]]; simpl in Hr;
      inversion Hr; subst. split; [reflexivity|]. intros _ Hne. contradiction. }
  destruct (respondWith (getNodeParameter this) =? "redirect") eqn:E7.
  { apply String.eqb_eq in E7. split; intros Hne; contradiction. }
  destruct (negb (respondWith (getNodeParameter this) =? "noData")); simpl in Hr;
    now inversion Hr.
Qed.

(** X7: the status code of the response is the configured one, and 200
    when none is configured or the configured one is 0, in every mode but
    [redirect]; the headers of the response are the configured ones in
    every mode but [redirect] and [binary]. *)
Theorem status_code_defaults_to_200 (this : IExecuteFunctions)
    (t : list Event) (r : Response) :
  respondWith (getNodeParameter this) ≠ "redirect" →
  tryBlock lib this = (t, Ok (FellThrough r)) →
  (responseCode (options (getNodeParameter this)) = None
     ∨ responseCode (options (getNodeParameter this)) = Some 0%Z →
   statusCode r = 200%Z)
  ∧ (∀ c, responseCode (options (getNodeParameter this)) = Some c → c ≠ 0%Z →
          statusCode r = c)
  ∧ (respondWith (getNodeParameter this) ≠ "binary" →
     headers r = configuredHeaders this).
Proof.
  intros Hmode Ht.
  destruct (tryBlock_fellThrough _ _ _ Ht) as (tr & b & _ & Hr & _ & _ & _).
  destruct (respond_keeps _ _ _ _ _ _ _ Hr) as [Hcode Hhs].
  specialize (Hcode Hmode). unfold defaultStatusCode, opts in Hcode.
  split; [|split].
  - intros [Hn|Hz]; rewrite Hcode; [now rewrite Hn|now rewrite Hz].
  - intros c Hc Hne. rewrite Hcode, Hc. apply Z.eqb_neq in Hne. now rewrite Hne.
  - intros Hbin. now apply Hhs.
Qed.

(** X8: mode [redirect] answers with no body, the configured URL in the
    [location] header in place of any configured one, the other headers as
    configured, and the configured status code, 0 included, or 307 when
    none is configured. *)
Theorem redirect_sets_location_and_status (this : IExecuteFunctions)
    (t : list Event) (r : Response) :
  respondWith (getNodeParameter this) = "redirect" →
  tryBlock lib this = (t, Ok (FellThrough r)) →
  body r = JUndefined
  ∧ headers r !! "location" = Some (Some (redirectURL (getNodeParameter this)))
  ∧ (∀ k, k ≠ "location" → headers r !! k = configuredHeaders this !! k)
  ∧ (responseCode (options (getNodeParameter this)) = None → statusCode r = 307%Z)
  ∧ (∀ c, responseCode (options (getNodeParameter this)) = Some c → statusCode r = c).
Proof.
  intros Hmode Ht.
  destruct (tryBlock_fellThrough _ _ _ Ht) as (tr & b & _ & Hr & _ & Hsb & _).
  rewrite (respond_redirect _ _ _ Hmode) in Hr. injection Hr as _ Hb Hh Hc.
  subst b. rewrite sandboxBody_undefined in Hsb. injection Hsb as Hbody.
  split; [now symmetry|]. rewrite <- Hh, <- Hc.
  split; [apply lookup_insert_eq|].
  split; [intros k Hk; now apply lookup_insert_ne|].
  split; [intros Hn; now rewrite Hn|intros c Hs; now rewrite Hs].
Qed.

(** ** Mode [binary], found data (lines 503-522, 582-584) *)

(** X9: mode [binary] never streams and never sanitizes: a completed run
    is one [sendResponse] call, streaming or not, whose body and headers
    are those [getBinaryResponse] makes of the configured headers and of
    the data the host returns for the resolved field: the configured field
    name when the source is 'set', the first attachment's name otherwise. *)
Theorem binary_response_is_sent_as_built (this : IExecuteFunctions)
    (t : list Event) (r : Response) (first : Item) (rest : list Item) :
  respondWith (getNodeParameter this) = "binary" →
  getInputData this = first :: rest →
  tryBlock lib this = (t, Ok (FellThrough r)) →
  t = [SendResponse r]
  ∧ ∃ (attachments : list (string * BinaryData)) (field : string)
      (binaryData : BinaryData),
      binary first = Some attachments
      ∧ assertBinaryData this 0 field = Ok binaryData
      ∧ getBinaryResponse lib binaryData (configuredHeaders this)
        = (body r, headers r)
      ∧ (responseDataSource (getNodeParameter this) = "set" →
         field = inputFieldName (getNodeParameter this))
      ∧ (responseDataSource (getNodeParameter this) ≠ "set" →
         ∃ d others, attachments = (field, d) :: others).
Proof.
  intros Hmode Hitems Ht.
  destruct (tryBlock_fellThrough _ _ _ Ht) as (tr & b & _ & Hr & _ & Hsb & ->).
  assert (Hsil : tr = []).
  { pose proof (respond_never_streams this (configuredHeaders this)
                  (defaultStatusCode this)) as Hn.
    unfold trace in Hn. rewrite Hr in Hn. apply Hn. rewrite Hmode.
    intros Hin.
    repeat (apply elem_of_cons in Hin as [Hin|Hin]; [discriminate|]).
    now apply elem_of_nil in Hin. }
  subst tr. rewrite Hmode. simpl. rewrite orb_true_r. split; [reflexivity|].
  assert (Hbody : body r = b).
  { unfold sandboxBody in Hsb. rewrite Hmode in Hsb. simpl in Hsb.
    rewrite andb_false_r in Hsb. simpl in Hsb. now injection Hsb. }
  unfold respond in Hr. rewrite Hmode in Hr. simpl in Hr.
  unfold respondBinary, items in Hr. rewrite Hitems in Hr.
  destruct (binary first) as [attachments|]; [|discriminate].
  exists attachments.
  destruct (responseDataSource (getNodeParameter this) =? "set") eqn:Hsrc.
  - simpl in Hr.
    destruct (assertBinaryData this 0 (inputFieldName (getNodeParameter this)))
      as [bd|e] eqn:Ha; [|discriminate].
    simpl in Hr.
    destruct (getBinaryResponse lib bd (configuredHeaders this)) as [b0 h0] eqn:Hg.
    simpl in Hr. injection Hr as Hb Hh _.
    exists (inputFieldName (getNodeParameter this)), bd.
    split; [reflexivity|]. split; [exact Ha|].
    split; [now rewrite Hbody, <- Hb, <- Hh|].
    split; [reflexivity|].
    intros Hne. apply String.eqb_eq in Hsrc. contradiction.
  - destruct attachments as [|[k d] others]; [discriminate|]. simpl in Hr.
    destruct (assertBinaryData this 0 k) as [bd|e] eqn:Ha; [|discriminate].
    simpl in Hr.
    destruct (getBinaryResponse lib bd (configuredHeaders this)) as [b0 h0] eqn:Hg.
    simpl in Hr. injection Hr as Hb Hh _.
    exists k, bd.
    split; [reflexivity|]. split; [exact Ha|].
    split; [now rewrite Hbody, <- Hb, <- Hh|].
    split.
    + intros Heq. apply String.eqb_neq in Hsrc. contradiction.
    + intros _. now exists d, others.
Qed.

(** ** Sanitizing a non-text body (lines 567-574) *)

(** X10: under an HTML-rendering content-type header, in every mode but
    [text] and [binary], a truthy body is replaced in the response by the
    sanitized form of its JSON string, and a falsy one (no body, [null],
    [false], 0, the empty string) is left alone; without such a header the
    body the mode built is the body of the response. *)
Theorem html_content_type_sanitizes_json_body (this : IExecuteFunctions)
    (t : list Event) (r : Response) :
  respondWith (getNodeParameter this) ≠ "text" →
  respondWith (getNodeParameter this) ≠ "binary" →
  tryBlock lib this = (t, Ok (FellThrough r)) →
  ∃ (tr : list Event) (built : JsValue),
    respond lib this (configuredHeaders this) (defaultStatusCode this)
      = (tr, Ok (built, headers r, statusCode r))
    ∧ (hasHtmlContentType lib (headers r) = true → truthy built = true →
       ∃ s, JSON_stringify lib built None = Ok s
            ∧ body r = JStr (sandboxHtmlResponse lib (JStr s)))
    ∧ (hasHtmlContentType lib (headers r) = false ∨ truthy built = false →
       body r = built).
Proof.
  intros Htext Hbin Ht.
  destruct (tryBlock_fellThrough _ _ _ Ht) as (tr & b & _ & Hr & _ & Hsb & _).
  exists tr, b. split; [exact Hr|].
  unfold sandboxBody in Hsb.
  apply String.eqb_neq in Htext, Hbin. rewrite Htext, Hbin in Hsb. simpl in Hsb.
  rewrite !andb_true_r in Hsb.
  split.
  - intros Hhtml Htruthy. rewrite Hhtml, Htruthy in Hsb. simpl in Hsb.
    destruct (JSON_stringify lib b None) as [s|e]; [|discriminate].
    exists s. split; [reflexivity|]. simpl in Hsb. now injection Hsb.
  - intros [Hhtml|Hfalsy].
    + rewrite Hhtml in Hsb. simpl in Hsb. now injection Hsb.
    + rewrite Hfalsy, andb_false_r in Hsb. now injection Hsb.
Qed.

(** ** The output branches (lines 349-355, 598-604) *)

(** X11: on completion [execute] passes its input on as [onMessage] does,
    followed by a second branch holding the response object, sent or not,
    exactly when the version is 1.3, or is at least 1.4 with the response
    output enabled. *)
Theorem output_branches_by_version (this : IExecuteFunctions) (data : Item)
    (t : list Event) (r : Response) :
  tryBlock lib this = (t, Ok (FellThrough r)) →
  trace (execute lib this) = t
  ∧ ((typeVersion this == v1_3)%Q →
     result (execute lib this) = Ok (onMessage this data ++ [[ResponseItem r]]))
  ∧ ((typeVersion this < v1_3)%Q ∨ (v1_3 < typeVersion this < v1_4)%Q →
     result (execute lib this) = Ok (onMessage this data))
  ∧ ((v1_4 <= typeVersion this)%Q →
     result (execute lib this) =
       Ok (if enableResponseOutput (getNodeParameter this)
           then onMessage this data ++ [[ResponseItem r]]
           else onMessage this data)).
Proof.
  intros Ht.
  split; [exact (proj1 (execute_fellThrough _ _ _ Ht))|].
  unfold execute, onMessage, nodeVersion, items.
  rewrite Ht, try_catch_ok, M_bind_ok. unfold result. cbv zeta.
  split; [|split].
  - intros Heq. apply Qeq_bool_iff in Heq. now rewrite Heq.
  - intros Hlt.
    assert (Hne : Qeq_bool (typeVersion this) v1_3 = false).
    { destruct (Qeq_bool (typeVersion this) v1_3) eqn:E; [|reflexivity].
      apply Qeq_bool_iff in E. exfalso. destruct Hlt as [Hlt|[Hlt _]].
      - rewrite E in Hlt. exact (Qlt_irrefl _ Hlt).
      - rewrite E in Hlt. exact (Qlt_irrefl _ Hlt). }
    assert (Hlow : Qle_bool v1_4 (typeVersion this) = false).
    { apply Qle_bool_false. destruct Hlt as [Hlt|[_ Hlt]]; [|exact Hlt].
      eapply Qlt_trans; [exact Hlt|]. reflexivity. }
    now rewrite Hne, Hlow.
  - intros Hle.
    assert (Hne : Qeq_bool (typeVersion this) v1_3 = false).
    { destruct (Qeq_bool (typeVersion this) v1_3) eqn:E; [|reflexivity].
      apply Qeq_bool_iff in E. exfalso. rewrite E in Hle.
      apply (Qle_not_lt _ _ Hle). reflexivity. }
    rewrite Hne, (Qle_bool_true _ _ Hle). simpl.
    now destruct (enableResponseOutput (getNodeParameter this)).
Qed.

(** ** The response headers (lines 395-403) *)










(** X14: in mode [text] a content-type header configured with an empty
    value, or with a null or undefined one, does not switch the
    sanitizing off. *)
Theorem empty_content_type_still_sanitizes (this : IExecuteFunctions)
    (t : list Event) (r : Response) :
  respondWith (getNodeParameter this) = "text" →
  configuredHeaders this !! "content-type" = Some None
    ∨ configuredHeaders this !! "content-type" = Some (Some EmptyString) →
  tryBlock lib this = (t, Ok (FellThrough r)) →
  body r = JStr (sandboxHtmlResponse lib (responseBody (getNodeParameter this))).
Proof.
  intros Hmode Hct Ht.
  destruct (tryBlock_fellThrough _ _ _ Ht) as (tr & b & _ & Hr & _ & Hs & _).
  destruct (respond_text this (configuredHeaders this) (defaultStatusCode this) Hmode)
    as [tr' Hr'].
  rewrite Hr' in Hr. injection Hr as _ Hb _ _.
  rewrite (sandboxBody_text _ _ _ Hmode) in Hs. injection Hs as Hbody.
  rewrite <- Hbody, <- Hb. unfold hasHtmlContentType, header_get.
  destruct Hct as [Hct|Hct]; rewrite Hct; reflexivity.
Qed.

(** ** Modes [json] and [jwt] (lines 410-462) *)

(** X15: mode [json] fails in one way only, with "Invalid JSON in
    'Response Body' field" and nothing delivered, whatever the parser
    reported; otherwise the body is undefined for a falsy parameter, the
    parameter itself when it already is an object or array, and the
    parser's result for anything else. *)
Theorem json_mode_outcomes (this : IExecuteFunctions) (hs : Headers) (code : Z)
    (tr : list Event) (o : Result (JsValue * Headers * Z)) :
  respondWith (getNodeParameter this) = "json" →
  respond lib this hs code = (tr, o) →
  let parameter := responseBody (getNodeParameter this) in
  (∀ e, o = Throw e →
        e = invalidJsonError ∧ tr = []
        ∧ truthy parameter = true ∧ typeof_object parameter = false
        ∧ ∃ e0, jsonParse lib parameter = Throw e0)
  ∧ (∀ b hs' code', o = Ok (b, hs', code') →
        (truthy parameter = false → b = JUndefined)
        ∧ (truthy parameter = true → typeof_object parameter = true → b = parameter)
        ∧ (truthy parameter = true → typeof_object parameter = false →
           jsonParse lib parameter = Ok b)).
Proof.
  intros Hmode Hr parameter. unfold respond in Hr. rewrite Hmode in Hr.
  simpl in Hr. unfold respondJson in Hr. fold parameter in Hr.
  destruct (truthy parameter) eqn:Ht;
    [destruct (typeof_object parameter) eqn:Hobj;
       [|destruct (jsonParse lib parameter) as [v|e0] eqn:Hp]|];
    destruct (shouldStream this); simpl in Hr; inversion Hr; subst;
    (split;
     [ intros e He; try discriminate; injection He as <-;
       repeat split; try reflexivity; now exists e0
     | intros b hs' code' Ho; try discriminate; injection Ho as <- <- <-;
       repeat split; intros; try reflexivity; try discriminate; try assumption ]).
Qed.

(** X16: a failure in mode [jwt] (the credentials or the signing) leaves
    nothing delivered and surfaces as "Error signing JWT token", unless the
    error caught already is a NodeOperationError, which is thrown on as it
    is; on success the body is [{token}], signed with the secret for key
    type 'passphrase' and with the formatted private key otherwise. *)
Theorem jwt_mode_outcomes (this : IExecuteFunctions) (hs : Headers) (code : Z)
    (tr : list Event) (o : Result (JsValue * Headers * Z)) :
  respondWith (getNodeParameter this) = "jwt" →
  respond lib this hs code = (tr, o) →
  (∀ e, o = Throw e →
     tr = []
     ∧ ∃ caught,
         (getCredentials this = Throw caught
          ∨ ∃ credentials,
              getCredentials this = Ok credentials
              ∧ jwt_sign lib (payload (getNodeParameter this))
                  (if keyType credentials =? "passphrase" then secret credentials
                   else formatPrivateKey lib (privateKey credentials))
                  (algorithm credentials) = Throw caught)
         ∧ (errKind caught = NodeOperationError → e = caught)
         ∧ (errKind caught ≠ NodeOperationError → e = jwtError))
  ∧ (∀ b hs' code', o = Ok (b, hs', code') →
       ∃ credentials token,
         getCredentials this = Ok credentials
         ∧ jwt_sign lib (payload (getNodeParameter this))
             (if keyType credentials =? "passphrase" then secret credentials
              else formatPrivateKey lib (privateKey credentials))
             (algorithm credentials) = Ok token
         ∧ b = JObj [("token", JStr token)]).
Proof.
  assert (Hwrap : ∀ caught,
    (errKind caught = NodeOperationError →
     newNodeOperationError caught "Error signing JWT token" = caught)
    ∧ (errKind caught ≠ NodeOperationError →
       newNodeOperationError caught "Error signing JWT token" = jwtError)).
  { intros caught. unfold newNodeOperationError.
    destruct (errKind caught); split; intros H; try reflexivity;
      try discriminate; now contradiction H. }
  intros Hmode Hr. unfold respond in Hr. rewrite Hmode in Hr.
  simpl in Hr. unfold respondJwt in Hr.
  destruct (getCredentials this) as [credentials|e0] eqn:Hc; simpl in Hr.
  - destruct (jwt_sign lib _ _ _) as [token|e1] eqn:Hsign; simpl in Hr.
    + destruct (shouldStream this); simpl in Hr; inversion Hr; subst;
        (split; [intros e He; discriminate|]);
        intros b hs' code' Ho; injection Ho as <- <- <-;
        now exists credentials, token.
    + inversion Hr; subst. split.
      * intros e He. injection He as <-. split; [reflexivity|].
        exists e1. split; [right; now exists credentials|apply Hwrap].
      * intros b hs' code' Ho. discriminate.
  - inversion Hr; subst. split.
    + intros e He. injection He as <-. split; [reflexivity|].
      exists e0. split; [now left|apply Hwrap].
    + intros b hs' code' Ho. discriminate.
Qed.

(** ** An unknown mode (lines 526-531) *)


(** ** Which parents count (lines 381, 533-547) *)

(** X18: the response is deferred to the chat only if an enabled chat
    trigger among the parents carries responseMode 'responseNodes': a
    disabled one, or one set to another mode, never suspends the
    execution. *)
Theorem deferral_needs_enabled_chat_trigger (this : IExecuteFunctions)
    (t : list Event) (out : list (list OutputItem)) :
  tryBlock lib this = (t, Ok (Returned out)) →
  ∃ node p o,
    node ∈ getParentNodes this
    ∧ type node = CHAT_TRIGGER_NODE_TYPE lib
    ∧ disabled node = false
    ∧ parameters node = Some p
    ∧ nodeOptions p = Some o
    ∧ responseMode o = Some "responseNodes".
Proof.
  intros Ht.
  destruct (tryBlock_unfold _ _ _ Ht) as [[_ (e & He & _)]|[_ Hrb]]; [discriminate|].
  destruct (respond lib this (configuredHeaders this) (defaultStatusCode this))
    as [tr [[[b hs] code]|er]] eqn:Hr.
  2: { rewrite (respondBlock_dispatch_throws _ _ _ Hr) in Hrb. discriminate. }
  rewrite (respondBlock_dispatched _ _ _ _ _ Hr), M_bind_ok in Hrb.
  destruct (chatTrigger lib this) as [node|] eqn:Hfind.
  2: { rewrite (chatDeferred_absent _ Hfind) in Hrb.
       rewrite (M_bind_ret false) in Hrb.
       destruct (sandboxBody lib this hs b) as [ts [b'|es]]; [|discriminate].
       simpl in Hrb. destruct (negb (shouldStream this) || _); discriminate. }
  destruct (chatTrigger_found _ _ Hfind) as (Hin & Htype & Hdis).
  destruct (parameters node) as [p|] eqn:Hp.
  2: { unfold chatDeferred in Hrb. rewrite Hfind, Hdis in Hrb. simpl in Hrb.
       unfold read_responseMode in Hrb. rewrite Hp in Hrb. discriminate. }
  destruct (nodeOptions p) as [o|] eqn:Ho.
  2: { rewrite (chatDeferred_without_options _ _ _ Hfind Hp Ho) in Hrb.
       discriminate. }
  rewrite (chatDeferred_configured _ _ _ _ Hfind Hp Ho) in Hrb.
  destruct (decide (responseMode o = Some "responseNodes")) as [Hm|Hm].
  - now exists node, p, o.
  - rewrite (bool_decide_eq_false_2 _ Hm) in Hrb.
    rewrite (M_bind_ret false) in Hrb.
    destruct (sandboxBody lib this hs b) as [ts [b'|es]]; [|discriminate].
    simpl in Hrb. destruct (negb (shouldStream this) || _); discriminate.
Qed.

Lemma chatTrigger_all_disabled (this : IExecuteFunctions) :
  Forall (λ node, type node = CHAT_TRIGGER_NODE_TYPE lib → disabled node = true)
         (getParentNodes this) →
  chatTrigger lib this = None.
Proof.
  intros Hall. unfold chatTrigger, connectedNodes.
  destruct (List.find _ (getParentNodes this)) as [node|] eqn:Hfind; [|reflexivity].
  apply find_some in Hfind as [Hin Hp].
  apply andb_true_iff in Hp as [Htype Hdis].
  apply String.eqb_eq in Htype. apply negb_true_iff in Hdis.
  rewrite Forall_forall in Hall.
  rewrite (Hall node (proj2 (list_elem_of_In _ _) Hin) Htype) in Hdis.
  discriminate.
Qed.

(** X19: the webhook-parent check does not look at [disabled]: a disabled
    webhook, form-trigger, chat-trigger or wait parent satisfies it, while
    chat triggers that are all disabled leave the response to be sent by
    the node itself. *)
Theorem disabled_parents_still_count (this : IExecuteFunctions) (node : Node) :
  node ∈ getParentNodes this →
  type node ∈ WEBHOOK_NODE_TYPES lib →
  disabled node = true →
  checkWebhookParent lib this = mret tt
  ∧ (Forall (λ n, type n = CHAT_TRIGGER_NODE_TYPE lib → disabled n = true)
            (getParentNodes this) →
     chatDeferred lib this = mret false).
Proof.
  intros Hin Htype _. split.
  - apply checkWebhookParent_connected. apply existsb_exists.
    exists node. split; [now apply list_elem_of_In|].
    now apply isWebhookNode_spec.
  - intros Hall. apply chatDeferred_absent. now apply chatTrigger_all_disabled.
Qed.

(** ** Mode [allIncomingItems] (lines 463-472) *)




(** X21: the body mode [allIncomingItems] builds is the array of the
    items' JSON in input order, the empty array for an empty input, nested
    under the put-in-field key when one is configured; short of an
    HTML-rendering content type it is the body of the response. *)
Theorem allIncomingItems_body (this : IExecuteFunctions) (t : list Event) (r : Response) :
  respondWith (getNodeParameter this) = "allIncomingItems" →
  hasHtmlContentType lib (configuredHeaders this) = false →
  tryBlock lib this = (t, Ok (FellThrough r)) →
  body r =
    match responseKey (options (getNodeParameter this)) with
    | Some key =>
        if key =? EmptyString then JArr (json <$> getInputData this)
        else lodash_set lib key (JArr (json <$> getInputData this))
    | None => JArr (json <$> getInputData this)
    end.
Proof.
  intros Hmode Hhtml Ht.
  destruct (tryBlock_fellThrough _ _ _ Ht) as (tr & b & _ & Hr & _ & Hsb & _).
  rewrite (respond_allIncomingItems _ _ _ Hmode) in Hr.
  injection Hr as _ Hb Hh _.
  unfold sandboxBody in Hsb. rewrite <- Hh, Hhtml in Hsb. simpl in Hsb.
  injection Hsb as Hbody. rewrite <- Hbody, <- Hb.
  unfold putInField, opts.
  destruct (responseKey (options (getNodeParameter this))) as [key|]; [|reflexivity].
  simpl. now destruct (key =? EmptyString).
Qed.

(** ** What one execution delivers (lines 357-605) *)

Lemma execute_trace (this : IExecuteFunctions) :
  trace (execute lib this) = trace (tryBlock lib this).
Proof.
  unfold execute. destruct (tryBlock lib this) as [t [r|e]].
  - rewrite try_catch_ok, M_bind_ok. unfold trace. simpl.
    destruct r as [out|response]; simpl; [now rewrite app_nil_r|].
    repeat case_match; simpl; now rewrite app_nil_r.
  - rewrite try_catch_fail. unfold catchBlock.
    destruct (continueOnFail this); unfold trace; simpl; now rewrite !app_nil_r.
Qed.

Lemma waitCount_app (t u : list Event) : waitCount (t ++ u) = waitCount t + waitCount u.
Proof. unfold waitCount. now rewrite List.filter_app, length_app. Qed.

Lemma onlyChunks_no_wait (t : list Event) :
  Forall (λ ev, isChunk ev = true) t → waitCount t = 0.
Proof.
  unfold waitCount. induction 1 as [|ev rest Hev _ IH]; [reflexivity|].
  simpl. destruct ev; try discriminate. exact IH.
Qed.

(** X22: whatever the inputs, one execution calls [sendResponse] at most
    once and [putExecutionToWait] at most once, never both, and makes the
    call, if any, after all of its chunks; the [catch] block and the code
    after the [try] block deliver nothing. *)
Theorem at_most_one_response_or_wait (this : IExecuteFunctions) :
  (sendResponseCount (trace (execute lib this))
     + waitCount (trace (execute lib this)) ≤ 1)%nat
  ∧ ∃ chunks tail,
      trace (execute lib this) = chunks ++ tail
      ∧ Forall (λ ev, isChunk ev = true) chunks
      ∧ (tail = []
         ∨ tail = [PutExecutionToWait WAIT_INDEFINITELY]
         ∨ ∃ r, tail = [SendResponse r]).
Proof.
  assert (Hshape : ∃ chunks tail,
      trace (execute lib this) = chunks ++ tail
      ∧ Forall (λ ev, isChunk ev = true) chunks
      ∧ (tail = []
         ∨ tail = [PutExecutionToWait WAIT_INDEFINITELY]
         ∨ ∃ r, tail = [SendResponse r])).
  { rewrite execute_trace.
    destruct (tryBlock lib this) as [t [[out|r]|e]] eqn:Ht; unfold trace; simpl.
    - destruct (tryBlock_returned _ _ _ Ht) as (tr & m & -> & Hc & _ & _).
      exists tr, [PutExecutionToWait WAIT_INDEFINITELY]. auto.
    - destruct (tryBlock_fellThrough _ _ _ Ht) as (tr & b & _ & Hr & _ & _ & ->).
      pose proof (onlyChunks_respond this (configuredHeaders this)
                    (defaultStatusCode this)) as Hc.
      unfold onlyChunks, trace in Hc. rewrite Hr in Hc. simpl in Hc.
      exists tr. eexists. split; [reflexivity|]. split; [exact Hc|].
      destruct (negb (shouldStream this) || _); eauto.
    - exists t, []. rewrite app_nil_r.
      split; [reflexivity|]. split; [exact (tryBlock_thrown _ _ _ Ht)|]. now left. }
  split; [|exact Hshape].
  destruct Hshape as (chunks & tail & -> & Hc & Htail).
  rewrite sendResponseCount_app, waitCount_app.
  rewrite (onlyChunks_no_sendResponse _ Hc), (onlyChunks_no_wait _ Hc).
  destruct Htail as [->|[->|[r ->]]]; unfold sendResponseCount, waitCount;
    simpl; lia.
Qed.

(** X23: the message handed to the chat is whatever the field holds, not
    necessarily a string: a number, boolean, array or object found under
    [output], [text] or [message] is returned as it is. *)
Theorem chat_message_keeps_non_strings (this : IExecuteFunctions)
    (t : list Event) (fields : list (string * JsValue)) (hs : Headers) (code : Z)
    (m : JsValue) :
  chatDeferred lib this = mret true →
  respond lib this (configuredHeaders this) (defaultStatusCode this)
    = (t, Ok (JObj fields, hs, code)) →
  extractedField fields = Some m →
  (∀ s, m ≠ JStr s) →
  execute lib this
    = (t ++ [PutExecutionToWait WAIT_INDEFINITELY], Ok [[ChatItem m]]).
Proof.
  intros Hd Hr Hm Hns.
  destruct (chatDeferred_true_found _ Hd) as [node Hfind].
  rewrite (execute_deferred _ _ _ _ _ (chatTrigger_passes_check _ _ Hfind) Hd Hr).
  now rewrite (chatMessage_extracted _ _ Hm (Hns EmptyString)).
Qed.

End Properties.

(** * Concrete runs *)

(** The webhook-parent check at version 1.1 with no parent, and at
    version 1 with no parent. *)
Lemma webhook_parent_check_gated_witness :
  tryBlock Sample.library
    (Sample.context v1_1 [] false false [Sample.jsonItem (JObj [])]
       (Sample.parametersFor "noData" Sample.noOptions JUndefined))
  = throw (mkError NodeOperationError "No Webhook node found in the workflow")
  ∧ tryBlock Sample.library
      (Sample.context 1 [] false false [Sample.jsonItem (JObj [])]
         (Sample.parametersFor "noData" Sample.noOptions JUndefined))
    = respondBlock Sample.library
        (Sample.context 1 [] false false [Sample.jsonItem (JObj [])]
           (Sample.parametersFor "noData" Sample.noOptions JUndefined)).
Proof.
  split.
  - apply (webhook_parent_check_gated Sample.library
             (Sample.context v1_1 [] false false [Sample.jsonItem (JObj [])]
                (Sample.parametersFor "noData" Sample.noOptions JUndefined))).
    + apply Qle_bool_iff. reflexivity.
    + constructor.
  - apply (webhook_parent_check_gated Sample.library
             (Sample.context 1 [] false false [Sample.jsonItem (JObj [])]
                (Sample.parametersFor "noData" Sample.noOptions JUndefined))).
    reflexivity.
Defined.

(** Mode [firstIncomingItem] on an empty input, version 1. *)
Lemma first_item_modes_need_nonempty_input_witness :
  ∃ e : JsError,
    errKind e = TypeError ∧
    tryBlock Sample.library
      (Sample.context 1 [] false false []
         (Sample.parametersFor "firstIncomingItem" Sample.noOptions JUndefined))
    = throw e ∧
    (false = false →
     execute Sample.library
       (Sample.context 1 [] false false []
          (Sample.parametersFor "firstIncomingItem" Sample.noOptions JUndefined))
     = throw e).
Proof.
  apply (first_item_modes_need_nonempty_input Sample.library
           (Sample.context 1 [] false false []
              (Sample.parametersFor "firstIncomingItem" Sample.noOptions JUndefined))).
  - reflexivity.
  - left. reflexivity.
  - reflexivity.
Defined.

(** A chat trigger without [options] in front of mode [noData]. *)
Lemma chat_trigger_options_unguarded_witness :
  ∃ e : JsError,
    errKind e = TypeError ∧
    tryBlock Sample.library
      (Sample.context v1_4 [Sample.chatNodeWithoutOptions] false false
         [Sample.jsonItem (JObj [])]
         (Sample.parametersFor "noData" Sample.noOptions JUndefined))
    = ([], Throw e) ∧
    Forall (λ ev, isChunk ev = true) [] ∧
    (false = false →
     execute Sample.library
       (Sample.context v1_4 [Sample.chatNodeWithoutOptions] false false
          [Sample.jsonItem (JObj [])]
          (Sample.parametersFor "noData" Sample.noOptions JUndefined))
     = ([], Throw e)).
Proof.
  apply (chat_trigger_options_unguarded Sample.library
           (Sample.context v1_4 [Sample.chatNodeWithoutOptions] false false
              [Sample.jsonItem (JObj [])]
              (Sample.parametersFor "noData" Sample.noOptions JUndefined))
           Sample.chatNodeWithoutOptions (mkNodeParameters None)
           [] JUndefined ∅ 200%Z).
  - reflexivity.
  - reflexivity.
  - reflexivity.
  - reflexivity.
Defined.

(** Two enabled chat triggers, the second without [options]: the lookup
    stops at the first, nothing is thrown and the response is sent. *)
Lemma chat_trigger_options_counterexample :
  Sample.chatNodeWithoutOptions ∈ getParentNodes Sample.twoChatTriggersRun
  ∧ type Sample.chatNodeWithoutOptions = CHAT_TRIGGER_NODE_TYPE Sample.library
  ∧ disabled Sample.chatNodeWithoutOptions = false
  ∧ (∃ p, parameters Sample.chatNodeWithoutOptions = Some p ∧ nodeOptions p = None)
  ∧ chatTrigger Sample.library Sample.twoChatTriggersRun
    = Some (Sample.chatNode (Some "lastNode"))
  ∧ execute Sample.library Sample.twoChatTriggersRun
    = ([SendResponse (mkResponse JUndefined ∅ 200)],
       Ok [[InputItem (Sample.jsonItem (JObj []))]]).
Proof.
  split; [apply list_elem_of_further, list_elem_of_here|].
  split; [reflexivity|]. split; [reflexivity|].
  split; [now exists (mkNodeParameters None)|].
  split; reflexivity.
Qed.

(** A first item [{output: "hi"}] handed to the chat. *)
Lemma chat_trigger_defers_response_witness :
  execute Sample.library (Sample.firstItemToChat (JObj [("output", JStr "hi")]))
  = ([PutExecutionToWait WAIT_INDEFINITELY], Ok [[ChatItem (JStr "hi")]])
  ∧ sendResponseCount
      (trace (execute Sample.library
                (Sample.firstItemToChat (JObj [("output", JStr "hi")])))) = 0.
Proof.
  pose proof (chat_trigger_defers_response Sample.library
                (Sample.firstItemToChat (JObj [("output", JStr "hi")]))
                (Sample.chatNode (Some "responseNodes"))
                (mkNodeParameters (Some (mkChatOptions (Some "responseNodes"))))
                (mkChatOptions (Some "responseNodes"))
                [] (JObj [("output", JStr "hi")]) ∅ 200%Z
                eq_refl eq_refl eq_refl eq_refl eq_refl) as (Hexec & Hcount & _).
  split; [exact Hexec|exact Hcount].
Defined.

(** A first item [{output: ""}]: the field is there, the message handed
    to the chat is the stringified body, not the field's value. *)
Lemma chat_message_empty_output_counterexample :
  extractedField [("output", JStr EmptyString)] = Some (JStr EmptyString)
  ∧ specChatMessage Sample.library (JObj [("output", JStr EmptyString)])
    = JStr EmptyString
  ∧ execute Sample.library
      (Sample.firstItemToChat (JObj [("output", JStr EmptyString)]))
    = ([PutExecutionToWait WAIT_INDEFINITELY],
       Ok [[ChatItem
              (JStr ("{" +:+ Sample.newline +:+ "  " +:+ dquote +:+ "output" +:+ dquote
                     +:+ ": " +:+ dquote +:+ dquote +:+ Sample.newline +:+ "}"))]])
  ∧ chatMessage Sample.library (JObj [("output", JStr EmptyString)])
    ≠ specChatMessage Sample.library (JObj [("output", JStr EmptyString)]).
Proof.
  split; [reflexivity|]. split; [reflexivity|]. split; [reflexivity|].
  vm_compute. discriminate.
Qed.

(** Two items handed to the chat as an array. *)
Lemma chat_message_empty_unless_plain_object_witness :
  execute Sample.library
    (Sample.allItemsToChat [Sample.jsonItem (JObj [("output", JStr "hi")]);
                            Sample.jsonItem (JObj [("text", JStr "there")])])
  = (itemChunks 0 [Sample.jsonItem (JObj [("output", JStr "hi")]);
                   Sample.jsonItem (JObj [("text", JStr "there")])]
     ++ [PutExecutionToWait WAIT_INDEFINITELY],
     Ok [[ChatItem (JStr EmptyString)]]).
Proof.
  apply (chat_message_empty_unless_plain_object Sample.library
           (Sample.allItemsToChat [Sample.jsonItem (JObj [("output", JStr "hi")]);
                                   Sample.jsonItem (JObj [("text", JStr "there")])])
           (itemChunks 0 [Sample.jsonItem (JObj [("output", JStr "hi")]);
                          Sample.jsonItem (JObj [("text", JStr "there")])])
           (JArr [JObj [("output", JStr "hi")]; JObj [("text", JStr "there")]])
           ∅ 200%Z).
  - reflexivity.
  - reflexivity.
  - left. reflexivity.
Defined.

(** A text answered with no header, and with [Content-Type: text/plain]. *)
Lemma text_body_sanitized_unless_non_html_witness :
  body (mkResponse (JStr (Sample.sandbox (JStr "<b>hi</b>"))) ∅ 200)
    = JStr (Sample.sandbox (JStr "<b>hi</b>"))
  ∧ body (mkResponse (JStr "<b>hi</b>") {["content-type" := Some "text/plain"]} 200)
    = JStr "<b>hi</b>".
Proof.
  split.
  - apply (text_body_sanitized_unless_non_html Sample.library
             (Sample.textRun None "<b>hi</b>")
             [SendResponse (mkResponse (JStr (Sample.sandbox (JStr "<b>hi</b>"))) ∅ 200)]
             (mkResponse (JStr (Sample.sandbox (JStr "<b>hi</b>"))) ∅ 200)).
    + reflexivity.
    + reflexivity.
    + reflexivity.
  - apply (text_body_sanitized_unless_non_html Sample.library
             (Sample.textRun
                (Some [mkHeader (JStr "Content-Type") (JStr "text/plain")])
                "<b>hi</b>")
             [SendResponse (mkResponse (JStr "<b>hi</b>")
                              {["content-type" := Some "text/plain"]} 200)]
             (mkResponse (JStr "<b>hi</b>")
                {["content-type" := Some "text/plain"]} 200))
      with (contentType := "text/plain").
    + reflexivity.
    + vm_compute. reflexivity.
    + vm_compute. reflexivity.
    + discriminate.
    + reflexivity.
Defined.



(** An unparsable JSON body with two input items and continue-on-fail. *)
Lemma continue_on_fail_yields_one_error_item_witness :
  execute Sample.library
    (Sample.invalidJsonRun [Sample.jsonItem (JNum 1); Sample.jsonItem (JNum 2)])
  = ([], Ok [[ErrorItem "Invalid JSON in 'Response Body' field"
                [mkPaired 0; mkPaired 1]]]).
Proof.
  apply (proj2 (continue_on_fail_yields_one_error_item Sample.library
                  (Sample.invalidJsonRun
                     [Sample.jsonItem (JNum 1); Sample.jsonItem (JNum 2)])
                  eq_refl)
           [] invalidJsonError).
  apply (invalid_json_throws Sample.library
           (Sample.invalidJsonRun
              [Sample.jsonItem (JNum 1); Sample.jsonItem (JNum 2)])
           (mkError HostError "Unexpected token in JSON")).
  - reflexivity.
  - reflexivity.
  - reflexivity.
  - reflexivity.
  - reflexivity.
Defined.

(** The same run, counted: two input items, one output item; and with no
    input item at all there still is one. *)
Lemma continue_on_fail_item_count_counterexample :
  ∃ returnData,
    result (execute Sample.library
              (Sample.invalidJsonRun
                 [Sample.jsonItem (JNum 1); Sample.jsonItem (JNum 2)]))
    = Ok [returnData]
    ∧ length returnData = 1
    ∧ length (getInputData
                (Sample.invalidJsonRun
                   [Sample.jsonItem (JNum 1); Sample.jsonItem (JNum 2)])) = 2
    ∧ result (execute Sample.library (Sample.invalidJsonRun []))
      = Ok [[ErrorItem "Invalid JSON in 'Response Body' field" []]].
Proof.
  exists [ErrorItem "Invalid JSON in 'Response Body' field" [mkPaired 0; mkPaired 1]].
  repeat split; reflexivity.
Qed.

(** Version 1.5 on a streaming host, mode [redirect]: nothing reaches the
    host. *)
Lemma streaming_redirect_noData_deliver_nothing_witness :
  trace (execute Sample.library (Sample.streamingRun "redirect")) = []
  ∧ deliveries (trace (execute Sample.library (Sample.streamingRun "redirect"))) = 0
  ∧ ∃ out, result (execute Sample.library (Sample.streamingRun "redirect")) = Ok out.
Proof.
  apply (streaming_redirect_noData_deliver_nothing Sample.library
           (Sample.streamingRun "redirect")).
  - reflexivity.
  - left. reflexivity.
  - reflexivity.
  - reflexivity.
Defined.

(** Version 1 on a host that does not stream, mode [allIncomingItems]:
    the item's triplet is emitted, and the response is sent as well. *)
Lemma allIncomingItems_chunks_unguarded_witness :
  ∃ rest,
    trace (execute Sample.library
             (Sample.context 1 [] false false [Sample.jsonItem (JObj [("a", JNum 1)])]
                (Sample.parametersFor "allIncomingItems" Sample.noOptions JUndefined)))
    = [SendChunk chunk_begin 0 JUndefined;
       SendChunk chunk_item 0 (JObj [("a", JNum 1)]);
       SendChunk chunk_end 0 JUndefined] ++ rest.
Proof.
  apply (allIncomingItems_chunks_unguarded Sample.library
           (Sample.context 1 [] false false [Sample.jsonItem (JObj [("a", JNum 1)])]
              (Sample.parametersFor "allIncomingItems" Sample.noOptions JUndefined))).
  - reflexivity.
  - reflexivity.
  - reflexivity.
Defined.

(** The same run in full: three chunks, then one response. *)
Example allIncomingItems_without_streaming_run :
  execute Sample.library
    (Sample.context 1 [] false false [Sample.jsonItem (JObj [("a", JNum 1)])]
       (Sample.parametersFor "allIncomingItems" Sample.noOptions JUndefined))
  = ([SendChunk chunk_begin 0 JUndefined;
      SendChunk chunk_item 0 (JObj [("a", JNum 1)]);
      SendChunk chunk_end 0 JUndefined;
      SendResponse (mkResponse (JArr [JObj [("a", JNum 1)]]) ∅ 200)],
     Ok [[InputItem (Sample.jsonItem (JObj [("a", JNum 1)]))]]).
Proof. reflexivity. Qed.

(** ** Runs for the further properties *)

(** A streamed JSON body in front of a chat trigger without [options]:
    three chunks, then the TypeError. *)
Lemma failure_sends_no_response_witness :
  Forall (λ ev, isChunk ev = true) (chunkTriplet 0 (JObj []))
  ∧ sendResponseCount
      (trace (execute Sample.library
                (Sample.context v1_5 [Sample.chatNodeWithoutOptions] true false
                   [Sample.jsonItem (JObj [])]
                   (Sample.parametersFor "json" Sample.noOptions (JStr "{}"))))) = 0.
Proof.
  apply (failure_sends_no_response Sample.library
           (Sample.context v1_5 [Sample.chatNodeWithoutOptions] true false
              [Sample.jsonItem (JObj [])]
              (Sample.parametersFor "json" Sample.noOptions (JStr "{}")))
           (chunkTriplet 0 (JObj []))
           (mkError TypeError
              "Cannot read properties of undefined (reading 'responseMode')")).
  reflexivity.
Defined.

Lemma returned_is_chat_deferral_witness :
  ∃ (tr : list Event) (message : JsValue),
    [PutExecutionToWait WAIT_INDEFINITELY]
      = tr ++ [PutExecutionToWait WAIT_INDEFINITELY]
    ∧ Forall (λ ev, isChunk ev = true) tr
    ∧ [[ChatItem (JStr "hi")]] = [[ChatItem message]]
    ∧ execute Sample.library (Sample.firstItemToChat (JObj [("output", JStr "hi")]))
      = ([PutExecutionToWait WAIT_INDEFINITELY], Ok [[ChatItem message]])
    ∧ ∃ node,
        chatTrigger Sample.library
          (Sample.firstItemToChat (JObj [("output", JStr "hi")])) = Some node.
Proof.
  apply (returned_is_chat_deferral Sample.library
           (Sample.firstItemToChat (JObj [("output", JStr "hi")]))
           [PutExecutionToWait WAIT_INDEFINITELY] [[ChatItem (JStr "hi")]]).
  reflexivity.
Defined.

(** Version 1.4, a text, no streaming: the response is all there is. *)
Lemma without_streaming_response_sent_last_witness :
  ∃ tr,
    [SendResponse (mkResponse (JStr (Sample.sandbox (JStr "hello"))) ∅ 200)]
      = tr ++ [SendResponse (mkResponse (JStr (Sample.sandbox (JStr "hello"))) ∅ 200)]
    ∧ Forall (λ ev, isChunk ev = true) tr
    ∧ ("text" ≠ "allIncomingItems" → tr = []).
Proof.
  apply (without_streaming_response_sent_last Sample.library
           (Sample.textRun None "hello")
           [SendResponse (mkResponse (JStr (Sample.sandbox (JStr "hello"))) ∅ 200)]
           (mkResponse (JStr (Sample.sandbox (JStr "hello"))) ∅ 200)).
  - left. reflexivity.
  - reflexivity.
Defined.

(** Version 1.5 on a streaming host, mode [json] with an empty object. *)
Lemma streaming_emits_one_triplet_witness :
  (∃ payload, chunkTriplet 0 (JObj []) = chunkTriplet 0 payload)
  ∧ sendResponseCount (chunkTriplet 0 (JObj [])) = 0.
Proof.
  apply (streaming_emits_one_triplet Sample.library
           (Sample.runOf v1_5 true "json" Sample.noOptions (JStr "{}")
              [Sample.jsonItem (JObj [])])
           (chunkTriplet 0 (JObj []))
           (mkResponse (JObj []) ∅ 200)).
  - reflexivity.
  - constructor.
  - reflexivity.
Defined.

(** Version 1.5 on a streaming host, mode [text] with markup. *)
Lemma streamed_text_is_not_sanitized_witness :
  chunkTriplet 0 (JStr "<b>") = chunkTriplet 0 (JStr "<b>")
  ∧ body (mkResponse (JStr (Sample.sandbox (JStr "<b>"))) ∅ 200)
    = JStr (Sample.sandbox (JStr "<b>")).
Proof.
  apply (streamed_text_is_not_sanitized Sample.library
           (Sample.runOf v1_5 true "text" Sample.noOptions (JStr "<b>")
              [Sample.jsonItem (JObj [])])
           (chunkTriplet 0 (JStr "<b>"))
           (mkResponse (JStr (Sample.sandbox (JStr "<b>"))) ∅ 200)).
  - reflexivity.
  - reflexivity.
  - reflexivity.
  - reflexivity.
Defined.

(** Version 1.5 on a streaming host, the first item put in field [data]. *)
Lemma streamed_first_item_ignores_responseKey_witness :
  chunkTriplet 0 (JObj [("a", JNum 1)]) = chunkTriplet 0 (JObj [("a", JNum 1)])
  ∧ body (mkResponse (JObj [("data", JObj [("a", JNum 1)])]) ∅ 200)
    = JObj [("data", JObj [("a", JNum 1)])].
Proof.
  apply (streamed_first_item_ignores_responseKey Sample.library
           (Sample.runOf v1_5 true "firstIncomingItem"
              (mkOptions None None (Some "data") None) JUndefined
              [Sample.jsonItem (JObj [("a", JNum 1)])])
           (chunkTriplet 0 (JObj [("a", JNum 1)]))
           (mkResponse (JObj [("data", JObj [("a", JNum 1)])]) ∅ 200)
           (Sample.jsonItem (JObj [("a", JNum 1)])) []).
  - reflexivity.
  - reflexivity.
  - reflexivity.
  - reflexivity.
  - reflexivity.
Defined.

(** A response code of 0 falls back to 200 outside mode [redirect]. *)
Lemma status_code_defaults_to_200_witness :
  statusCode (mkResponse JUndefined ∅ 200) = 200%Z.
Proof.
  apply (proj1 (status_code_defaults_to_200 Sample.library
                  (Sample.runOf v1_4 false "noData"
                     (mkOptions (Some 0%Z) None None None) JUndefined
                     [Sample.jsonItem (JObj [])])
                  [SendResponse (mkResponse JUndefined ∅ 200)]
                  (mkResponse JUndefined ∅ 200)
                  ltac:(discriminate) eq_refl)).
  right. reflexivity.
Defined.

(** A redirect with no response code configured. *)
Lemma redirect_sets_location_and_status_witness :
  body (mkResponse JUndefined {["location" := Some "http://x"]} 307) = JUndefined
  ∧ ({["location" := Some "http://x"]} : Headers) !! "location"
    = Some (Some "http://x").
Proof.
  pose proof (redirect_sets_location_and_status Sample.library
                (Sample.runOf v1_4 false "redirect" Sample.noOptions JUndefined
                   [Sample.jsonItem (JObj [])])
                [SendResponse
                   (mkResponse JUndefined {["location" := Some "http://x"]} 307)]
                (mkResponse JUndefined {["location" := Some "http://x"]} 307)
                eq_refl eq_refl) as (Hbody & Hloc & _).
  split; [exact Hbody|exact Hloc].
Defined.

(** A PNG attachment found automatically. *)
Lemma binary_response_is_sent_as_built_witness :
  ∃ (attachments : list (string * BinaryData)) (field : string)
    (binaryData : BinaryData),
    Some [("file", Sample.pngFile)] = Some attachments
    ∧ Sample.assertBinary
        [mkItem (JObj []) (Some [("file", Sample.pngFile)])] 0 field
      = Ok binaryData
    ∧ getBinaryResponse Sample.library binaryData ∅
      = (JStr "iVBORw0KGgo=", {["content-type" := Some "image/png"]}).
Proof.
  destruct (binary_response_is_sent_as_built Sample.library
              (Sample.binaryRun "automatically"
                 (mkItem (JObj []) (Some [("file", Sample.pngFile)])))
              [SendResponse (mkResponse (JStr "iVBORw0KGgo=")
                               {["content-type" := Some "image/png"]} 200)]
              (mkResponse (JStr "iVBORw0KGgo=")
                 {["content-type" := Some "image/png"]} 200)
              (mkItem (JObj []) (Some [("file", Sample.pngFile)])) []
              eq_refl eq_refl eq_refl)
    as (_ & attachments & field & binaryData & Hbin & Hassert & Hget & _).
  exists attachments, field, binaryData.
  split; [exact Hbin|]. split; [exact Hassert|exact Hget].
Defined.

(** A JSON body under [Content-Type: text/html]. *)
Lemma html_content_type_sanitizes_json_body_witness :
  ∃ (tr : list Event) (built : JsValue),
    respond Sample.library Sample.htmlJsonRun
      (configuredHeaders Sample.htmlJsonRun) (defaultStatusCode Sample.htmlJsonRun)
    = (tr, Ok (built, headers Sample.htmlJsonResponse,
               statusCode Sample.htmlJsonResponse))
    ∧ (hasHtmlContentType Sample.library (headers Sample.htmlJsonResponse) = true →
       truthy built = true →
       ∃ s, JSON_stringify Sample.library built None = Ok s
            ∧ body Sample.htmlJsonResponse
              = JStr (sandboxHtmlResponse Sample.library (JStr s)))
    ∧ (hasHtmlContentType Sample.library (headers Sample.htmlJsonResponse) = false
         ∨ truthy built = false →
       body Sample.htmlJsonResponse = built).
Proof.
  apply (html_content_type_sanitizes_json_body Sample.library Sample.htmlJsonRun
           [SendResponse Sample.htmlJsonResponse] Sample.htmlJsonResponse).
  - discriminate.
  - discriminate.
  - reflexivity.
Defined.

(** Version 1.3: the response branch is there without being asked for. *)
Lemma output_branches_by_version_witness :
  result (execute Sample.library
            (Sample.runOf v1_3 false "noData" Sample.noOptions JUndefined
               [Sample.jsonItem (JObj [])]))
  = Ok ([[InputItem (Sample.jsonItem (JObj []))]]
        ++ [[ResponseItem (mkResponse JUndefined ∅ 200)]]).
Proof.
  apply (proj1 (proj2 (output_branches_by_version Sample.library
                         (Sample.runOf v1_3 false "noData" Sample.noOptions JUndefined
                            [Sample.jsonItem (JObj [])])
                         (Sample.jsonItem (JObj []))
                         [SendResponse (mkResponse JUndefined ∅ 200)]
                         (mkResponse JUndefined ∅ 200) eq_refl))).
  reflexivity.
Defined.



(** A content-type header left empty. *)
Lemma empty_content_type_still_sanitizes_witness :
  body (mkResponse (JStr (Sample.sandbox (JStr "<b>")))
          {["content-type" := Some EmptyString]} 200)
  = JStr (Sample.sandbox (JStr "<b>")).
Proof.
  apply (empty_content_type_still_sanitizes Sample.library
           (Sample.textRun
              (Some [mkHeader (JStr "Content-Type") (JStr EmptyString)]) "<b>")
           [SendResponse (mkResponse (JStr (Sample.sandbox (JStr "<b>")))
                            {["content-type" := Some EmptyString]} 200)]
           (mkResponse (JStr (Sample.sandbox (JStr "<b>")))
              {["content-type" := Some EmptyString]} 200)).
  - reflexivity.
  - right. reflexivity.
  - reflexivity.
Defined.

(** An unparsable JSON body. *)
Lemma json_mode_outcomes_witness :
  invalidJsonError = invalidJsonError ∧ ([] : list Event) = []
  ∧ truthy (JStr "{") = true ∧ typeof_object (JStr "{") = false
  ∧ ∃ e0, jsonParse Sample.library (JStr "{") = Throw e0.
Proof.
  apply (proj1 (json_mode_outcomes Sample.library
                  (Sample.invalidJsonRun [Sample.jsonItem (JObj [])]) ∅ 200%Z
                  [] (Throw invalidJsonError) eq_refl eq_refl)
           invalidJsonError).
  reflexivity.
Defined.

(** A node without credentials: the host's error is thrown on as it is. *)
Lemma jwt_mode_outcomes_witness :
  ([] : list Event) = []
  ∧ ∃ caught,
      (getCredentials Sample.jwtRunWithoutCredentials = Throw caught
       ∨ ∃ credentials,
           getCredentials Sample.jwtRunWithoutCredentials = Ok credentials
           ∧ jwt_sign Sample.library
               (payload (getNodeParameter Sample.jwtRunWithoutCredentials))
               (if keyType credentials =? "passphrase" then secret credentials
                else formatPrivateKey Sample.library (privateKey credentials))
               (algorithm credentials) = Throw caught)
      ∧ (errKind caught = NodeOperationError → Sample.noCredentialsError = caught)
      ∧ (errKind caught ≠ NodeOperationError → Sample.noCredentialsError = jwtError).
Proof.
  apply (proj1 (jwt_mode_outcomes Sample.library Sample.jwtRunWithoutCredentials
                  ∅ 200%Z [] (Throw Sample.noCredentialsError) eq_refl eq_refl)
           Sample.noCredentialsError).
  reflexivity.
Defined.


Lemma deferral_needs_enabled_chat_trigger_witness :
  ∃ node p o,
    node ∈ [Sample.chatNode (Some "responseNodes")]
    ∧ type node = "@n8n/n8n-nodes-langchain.chatTrigger"
    ∧ disabled node = false
    ∧ parameters node = Some p
    ∧ nodeOptions p = Some o
    ∧ responseMode o = Some "responseNodes".
Proof.
  apply (deferral_needs_enabled_chat_trigger Sample.library
           (Sample.firstItemToChat (JObj [("output", JStr "hi")]))
           [PutExecutionToWait WAIT_INDEFINITELY] [[ChatItem (JStr "hi")]]).
  reflexivity.
Defined.

(** A disabled chat trigger as the only parent, version 1.4. *)
Lemma disabled_parents_still_count_witness :
  checkWebhookParent Sample.library
    (Sample.context v1_4 [Sample.disabledChatNode] false false
       [Sample.jsonItem (JObj [])]
       (Sample.parametersFor "noData" Sample.noOptions JUndefined))
  = mret tt
  ∧ chatDeferred Sample.library
      (Sample.context v1_4 [Sample.disabledChatNode] false false
         [Sample.jsonItem (JObj [])]
         (Sample.parametersFor "noData" Sample.noOptions JUndefined))
    = mret false.
Proof.
  destruct (disabled_parents_still_count Sample.library
              (Sample.context v1_4 [Sample.disabledChatNode] false false
                 [Sample.jsonItem (JObj [])]
                 (Sample.parametersFor "noData" Sample.noOptions JUndefined))
              Sample.disabledChatNode) as [Hcheck Hchat].
  - constructor.
  - do 2 apply list_elem_of_further. apply list_elem_of_here.
  - reflexivity.
  - split; [exact Hcheck|]. apply Hchat. repeat constructor.
Defined.


(** Two items under the key [data]: the array keeps the input order and
    is nested under the key. *)
Lemma allIncomingItems_body_witness :
  tryBlock Sample.library Sample.keyedItemsRun
  = (itemChunks 0 (getInputData Sample.keyedItemsRun)
     ++ [SendResponse Sample.keyedItemsResponse],
     Ok (FellThrough Sample.keyedItemsResponse))
  ∧ body Sample.keyedItemsResponse
    = match responseKey (options (getNodeParameter Sample.keyedItemsRun)) with
      | Some key =>
          if key =? EmptyString
          then JArr (json <$> getInputData Sample.keyedItemsRun)
          else lodash_set Sample.library key
                 (JArr (json <$> getInputData Sample.keyedItemsRun))
      | None => JArr (json <$> getInputData Sample.keyedItemsRun)
      end.
Proof.
  split; [reflexivity|].
  apply (allIncomingItems_body Sample.library Sample.keyedItemsRun
           (itemChunks 0 (getInputData Sample.keyedItemsRun)
            ++ [SendResponse Sample.keyedItemsResponse])
           Sample.keyedItemsResponse).
  - reflexivity.
  - reflexivity.
  - reflexivity.
Defined.

(** A first item [{output: 42}] handed to the chat. *)
Lemma chat_message_keeps_non_strings_witness :
  execute Sample.library (Sample.firstItemToChat (JObj [("output", JNum 42)]))
  = ([] ++ [PutExecutionToWait WAIT_INDEFINITELY], Ok [[ChatItem (JNum 42)]]).
Proof.
  apply (chat_message_keeps_non_strings Sample.library
           (Sample.firstItemToChat (JObj [("output", JNum 42)]))
           [] [("output", JNum 42)] ∅ 200%Z (JNum 42)).
  - reflexivity.
  - reflexivity.
  - reflexivity.
  - discriminate.
Defined.
